(** * filesystem-file: the local-file backend and its change watcher

    A shallow embedding of the Go package [file] (the file adapter with its
    context-respecting file handle, and [file_watcher.go]).

    The operating system, the [net/url] and [path] libraries and the
    [fsnotify] watcher are not part of the package.  They are modelled by
    - a concrete [World]: regular files and directories by path, the table
      of open file descriptors, the state of every [fsnotify] watcher, a
      clock, and a log of the calls that acquire or release a resource and
      of the callback invocations;
    - an environment [Env] of oracles: what [os.Stat], [os.Readlink] and
      URL resolution answer, which OS calls are refused, how long a
      blocking call takes and how a [select] with two ready cases picks.
    The theorems of the section [Properties] hold for every environment.

    A goroutine started with [go] for one blocking call is modelled as
    running to completion: its effect on the world is applied when it is
    started, and the [select] that follows decides, from the clock, whether
    the caller sees the result or the cancellation. *)

From Stdlib Require Import ZArith Lia.
From Stdlib.Strings Require Import Byte.
From stdpp Require Import gmap strings list.

Local Open Scope Z_scope.

(** ** Errors, URLs, file information *)

Inductive error : Type :=
| Canceled                 (* context.Canceled *)
| DeadlineExceeded         (* context.DeadlineExceeded *)
| EOF                      (* io.EOF *)
| ErrClosed                (* os.ErrClosed: the descriptor is not open *)
| ErrNotExist              (* ENOENT *)
| ErrIsDir                 (* EISDIR *)
| ErrNotDir                (* ENOTDIR *)
| ErrBadF                  (* EBADF: wrong access mode *)
| ErrInval                 (* EINVAL *)
| ErrNoWatch               (* fsnotify: no such watch *)
| OSError (msg : string).  (* any other failure reported by the environment *)

Inductive result (A : Type) : Type :=
| Ok (a : A)
| Err (e : error).
Arguments Ok {A} a.
Arguments Err {A} e.

(** [url.URL]: the package only ever reads the [Path] component. *)
Record URL : Type := mkURL { Path : string }.

(** [os.FileInfo]: the package reads [Mode()] and [IsDir()]. *)
Record FileInfo : Type := mkFileInfo { Mode : Z }.

Definition ModeDir : Z := Z.shiftl 1 31.
Definition ModeSymlink : Z := Z.shiftl 1 27.

Definition IsDir (fi : FileInfo) : bool :=
  negb (Z.land (Mode fi) ModeDir =? 0).

(** Flags of [os.OpenFile] (Linux values) and the [io.Seek*] constants. *)
Definition O_RDONLY : Z := 0.
Definition O_WRONLY : Z := 1.
Definition O_RDWR : Z := 2.
Definition O_CREATE : Z := 64.
Definition O_TRUNC : Z := 512.
Definition O_APPEND : Z := 1024.

Definition SeekStart : Z := 0.
Definition SeekCurrent : Z := 1.
Definition SeekEnd : Z := 2.

Definition MaxInt64 : Z := 2 ^ 63 - 1.

Definition has_flag (flag bit : Z) : bool := negb (Z.land flag bit =? 0).
Definition access_mode (flag : Z) : Z := Z.land flag 3.
Definition can_write (flag : Z) : bool := negb (access_mode flag =? O_RDONLY).
Definition can_read (flag : Z) : bool := negb (access_mode flag =? O_WRONLY).

(** ** Handles, callbacks, the event log *)

(** [ContextRespectingIoFile]: wraps one [*os.File], here its descriptor. *)
Record ContextRespectingIoFile : Type :=
  NewContextRespectingIoFile { actualFile : nat }.

(** [filesystem.FileWatchFunc] is supplied by the caller; the model gives a
    callback a name and logs each invocation with its arguments. *)
Definition FileWatchFunc : Type := nat.

Inductive Event : Type :=
| EvNewWatcher
| EvStat (name : string)
| EvReadlink (name : string)
| EvWatchAdd (wid : nat) (name : string)
| EvWatchRemove (wid : nat) (name : string)
| EvWatchClose (wid : nat)
| EvMkdirAll (name : string)
| EvOpenFile (name : string) (flag : Z)
| EvReaddirnames (fd : nat)
| EvFileClose (fd : nat)
| EvCallback (cb : FileWatchFunc) (subject : URL)
             (reader : option ContextRespectingIoFile)   (* cb(subject, reader) *)
| EvGoCallback (cb : FileWatchFunc) (subject : URL)
               (reader : option ContextRespectingIoFile) (* go cb(subject, reader) *)
| EvGoWatchForChanges (wid : nat)                        (* go ret.watchForChanges() *)
| EvErrSend (wid : nat) (e : error).                     (* watcher.Errors <- e *)

(** ** The world *)

Inductive node : Type :=
| NFile (content : list byte)
| NDir (names : list string).

Record fdesc : Type := mkFd {
  fd_path : string;
  fd_flag : Z;
  fd_offset : Z
}.

(** One [fsnotify.Watcher]: the watched paths, whether it was closed, and
    what was sent on its [Errors] channel. *)
Record watcherState : Type := mkWatcher {
  wt_paths : gset string;
  wt_closed : bool;
  wt_errors : list error
}.

Record World : Type := mkWorld {
  w_fs : gmap string node;
  w_fds : gmap nat fdesc;
  w_next_fd : nat;
  w_watchers : gmap nat watcherState;
  w_next_wid : nat;
  w_now : nat;
  w_trace : list Event
}.

Definition log (e : Event) (w : World) : World :=
  mkWorld (w_fs w) (w_fds w) (w_next_fd w) (w_watchers w) (w_next_wid w)
          (w_now w) (w_trace w ++ [e]).

Definition set_fs (fs : gmap string node) (w : World) : World :=
  mkWorld fs (w_fds w) (w_next_fd w) (w_watchers w) (w_next_wid w)
          (w_now w) (w_trace w).

Definition set_fds (fds : gmap nat fdesc) (w : World) : World :=
  mkWorld (w_fs w) fds (w_next_fd w) (w_watchers w) (w_next_wid w)
          (w_now w) (w_trace w).

Definition alloc_fd (d : fdesc) (w : World) : nat * World :=
  (w_next_fd w,
   mkWorld (w_fs w) (<[w_next_fd w := d]> (w_fds w)) (S (w_next_fd w))
           (w_watchers w) (w_next_wid w) (w_now w) (w_trace w)).

Definition set_watchers (ws : gmap nat watcherState) (w : World) : World :=
  mkWorld (w_fs w) (w_fds w) (w_next_fd w) ws (w_next_wid w)
          (w_now w) (w_trace w).

Definition alloc_watcher (w : World) : nat * World :=
  (w_next_wid w,
   mkWorld (w_fs w) (w_fds w) (w_next_fd w)
           (<[w_next_wid w := mkWatcher ∅ false []]> (w_watchers w))
           (S (w_next_wid w)) (w_now w) (w_trace w)).

Definition set_now (t : nat) (w : World) : World :=
  mkWorld (w_fs w) (w_fds w) (w_next_fd w) (w_watchers w) (w_next_wid w)
          t (w_trace w).

(** ** Contexts *)

(** [context.Context]: when [Done()] is closed, if ever, and what [Err()]
    answers from then on. *)
Record Context : Type := mkContext {
  ctx_done_at : option nat;
  ctx_err : error
}.

(** [context.Background()] is never done. *)
Definition Background : Context := mkContext None Canceled.

Inductive selected : Type := SelDone | SelResult.

(** ** Slices *)

(** Go's builtin [copy(dst, src)]: overwrites the first
    [min(len(dst), len(src))] elements of [dst]. *)
Definition copy {A : Type} (dst src : list A) : list A :=
  take (length dst) src ++ drop (length src) dst.

(** [make([]byte, n)] *)
Definition make_bytes (n : nat) : list byte := replicate n x00.

(** ** The environment *)

Record Env : Type := mkEnv {
  path_Dir : string -> string;                   (* path.Dir *)
  url_Parse : URL -> string -> result URL;       (* url.URL.Parse *)
  env_Stat : string -> result FileInfo;          (* answer of os.Stat *)
  env_Readlink : string -> result string;        (* answer of os.Readlink *)
  mkdirall_fault : string -> option error;
  open_fault : string -> Z -> option error;
  readdir_fault : string -> option error;
  newwatcher_fault : option error;
  watchadd_fault : string -> option error;
  watchremove_fault : string -> option error;
  watchclose_fault : option error;
  latency : nat -> nat;    (* a blocking call started at [t] takes [latency t] *)
  tie : nat -> bool        (* both cases ready at [t]: [true] picks ctx.Done() *)
}.

Section Package.

Variable E : Env.

(** ** Operating system calls *)

Definition os_Stat (name : string) (w : World) : result FileInfo * World :=
  (env_Stat E name, log (EvStat name) w).

Definition os_Readlink (name : string) (w : World) : result string * World :=
  (env_Readlink E name, log (EvReadlink name) w).

Definition os_MkdirAll (name : string) (w : World) : option error * World :=
  (mkdirall_fault E name, log (EvMkdirAll name) w).

Definition os_OpenFile (name : string) (flag : Z) (w : World)
  : result nat * World :=
  let w := log (EvOpenFile name flag) w in
  match open_fault E name flag with
  | Some e => (Err e, w)
  | None =>
    match w_fs w !! name with
    | Some (NFile _) =>
        let w := if can_write flag && has_flag flag O_TRUNC
                 then set_fs (<[name := NFile []]> (w_fs w)) w else w in
        let '(fd, w) := alloc_fd (mkFd name flag 0) w in
        (Ok fd, w)
    | Some (NDir _) =>
        if can_write flag then (Err ErrIsDir, w)
        else let '(fd, w) := alloc_fd (mkFd name flag 0) w in (Ok fd, w)
    | None =>
        if has_flag flag O_CREATE then
          let '(fd, w) := alloc_fd (mkFd name flag 0)
                                   (set_fs (<[name := NFile []]> (w_fs w)) w) in
          (Ok fd, w)
        else (Err ErrNotExist, w)
    end
  end.

(** [os.Open(name)] is [OpenFile(name, O_RDONLY, 0)]. *)
Definition os_Open (name : string) : World -> result nat * World :=
  os_OpenFile name O_RDONLY.

(** [os.File.Read(b)]: fills a prefix of [b]; [io.EOF] at the end of the
    file, nothing at all for an empty [b]. *)
Definition os_File_Read (fd : nat) (b : list byte) (w : World)
  : (list byte * Z * option error) * World :=
  match w_fds w !! fd with
  | None => ((b, 0, Some ErrClosed), w)
  | Some d =>
    if negb (can_read (fd_flag d)) then ((b, 0, Some ErrBadF), w)
    else
      match w_fs w !! fd_path d with
      | Some (NFile c) =>
          let chunk := take (length b) (drop (Z.to_nat (fd_offset d)) c) in
          match b, chunk with
          | [], _ => ((b, 0, None), w)
          | _, [] => ((b, 0, Some EOF), w)
          | _, _ =>
              let n := Z.of_nat (length chunk) in
              ((copy b chunk, n, None),
               set_fds (<[fd := mkFd (fd_path d) (fd_flag d) (fd_offset d + n)]>
                          (w_fds w)) w)
          end
      | Some (NDir _) => ((b, 0, Some ErrIsDir), w)
      | None => ((b, 0, Some ErrNotExist), w)
      end
  end.

(** [os.File.Write(b)]: writes all of [b] at the offset (at the end with
    [O_APPEND]), padding a gap with zero bytes. *)
Definition os_File_Write (fd : nat) (b : list byte) (w : World)
  : (Z * option error) * World :=
  match w_fds w !! fd with
  | None => ((0, Some ErrClosed), w)
  | Some d =>
    if negb (can_write (fd_flag d)) then ((0, Some ErrBadF), w)
    else
      match w_fs w !! fd_path d with
      | Some (NFile c) =>
          let off := if has_flag (fd_flag d) O_APPEND then length c
                     else Z.to_nat (fd_offset d) in
          let c' := take off c ++ replicate (off - length c)%nat x00
                    ++ b ++ drop (off + length b) c in
          let n := Z.of_nat (length b) in
          ((n, None),
           set_fds (<[fd := mkFd (fd_path d) (fd_flag d) (Z.of_nat off + n)]>
                      (w_fds w))
                   (set_fs (<[fd_path d := NFile c']> (w_fs w)) w))
      | Some (NDir _) => ((0, Some ErrIsDir), w)
      | None => ((0, Some ErrNotExist), w)
      end
  end.

Definition file_size (w : World) (name : string) : Z :=
  match w_fs w !! name with
  | Some (NFile c) => Z.of_nat (length c)
  | _ => 0
  end.

(** [os.File.Seek(offset, whence)] *)
Definition os_File_Seek (fd : nat) (offset whence : Z) (w : World)
  : (Z * option error) * World :=
  match w_fds w !! fd with
  | None => ((0, Some ErrClosed), w)
  | Some d =>
    let base :=
      if whence =? SeekStart then Some 0
      else if whence =? SeekCurrent then Some (fd_offset d)
      else if whence =? SeekEnd then Some (file_size w (fd_path d))
      else None in
    match base with
    | None => ((0, Some ErrInval), w)
    | Some b =>
        let pos := b + offset in
        if (pos <? 0) || (MaxInt64 <? pos) then ((0, Some ErrInval), w)
        else ((pos, None),
              set_fds (<[fd := mkFd (fd_path d) (fd_flag d) pos]> (w_fds w)) w)
    end
  end.

(** [os.File.Close()] *)
Definition os_File_Close (fd : nat) (w : World) : option error * World :=
  let w := log (EvFileClose fd) w in
  match w_fds w !! fd with
  | None => (Some ErrClosed, w)
  | Some _ => (None, set_fds (delete fd (w_fds w)) w)
  end.

(** [os.File.Readdirnames(-1)] *)
Definition os_File_Readdirnames (fd : nat) (w : World)
  : result (list string) * World :=
  let w := log (EvReaddirnames fd) w in
  match w_fds w !! fd with
  | None => (Err ErrClosed, w)
  | Some d =>
    match readdir_fault E (fd_path d) with
    | Some e => (Err e, w)
    | None =>
      match w_fs w !! fd_path d with
      | Some (NDir names) => (Ok names, w)
      | Some (NFile _) => (Err ErrNotDir, w)
      | None => (Err ErrNotExist, w)
      end
    end
  end.

(** ** The select between ctx.Done() and the result of a worker *)

(** The worker's result is ready at [now + latency now]; [ctx.Done()] is
    ready from [ctx_done_at] on.  The earlier case is taken; when both are
    ready at the same time Go picks either, here by the [tie] oracle. *)
Definition select (ctx : Context) (w : World) : selected * World :=
  let now := w_now w in
  let t_op := (now + latency E now)%nat in
  match ctx_done_at ctx with
  | None => (SelResult, set_now t_op w)
  | Some d =>
      let t_ctx := Nat.max d now in
      if (t_ctx <? t_op)%nat then (SelDone, set_now t_ctx w)
      else if (t_op <? t_ctx)%nat then (SelResult, set_now t_op w)
      else if tie E now then (SelDone, set_now t_ctx w)
      else (SelResult, set_now t_op w)
  end.

(** The signal fires strictly before the worker completes. *)
Definition fires_first (ctx : Context) (w : World) : Prop :=
  match ctx_done_at ctx with
  | None => False
  | Some d => (Nat.max d (w_now w) < w_now w + latency E (w_now w))%nat
  end.

(** ** ContextRespectingIoFile *)

Record asyncReadResult : Type := mkAsyncReadResult {
  Data : list byte;
  Length : Z;
  Error : option error
}.

Definition asyncRead (f : ContextRespectingIoFile) (length : nat) (w : World)
  : asyncReadResult * World :=
  let '((data, l, err), w) :=
    os_File_Read (actualFile f) (make_bytes length) w in
  (mkAsyncReadResult data l err, w).

Definition asyncWrite (f : ContextRespectingIoFile) (b : list byte) (w : World)
  : (Z * option error) * World :=
  os_File_Write (actualFile f) b w.

Definition asyncClose (f : ContextRespectingIoFile) (w : World)
  : option error * World :=
  os_File_Close (actualFile f) w.

(** [Read(ctx, p)] returns [(l, err)] and the contents of [p] afterwards. *)
Definition Read (f : ContextRespectingIoFile) (ctx : Context) (p : list byte)
  (w : World) : (Z * option error * list byte) * World :=
  let '(res, w) := asyncRead f (length p) w in
  let '(s, w) := select ctx w in
  match s with
  | SelDone => ((0, Some (ctx_err ctx), p), w)
  | SelResult =>
      let p' := match Error res with
                | None => copy p (Data res)
                | Some _ => p
                end in
      ((Length res, Error res, p'), w)
  end.

(** [Write(ctx, b)] never stores into [b]; the worker gets the copy [nb]. *)
Definition Write (f : ContextRespectingIoFile) (ctx : Context) (b : list byte)
  (w : World) : (Z * option error) * World :=
  let nb := copy (make_bytes (length b)) b in
  let '((l, err), w) := asyncWrite f nb w in
  let '(s, w) := select ctx w in
  match s with
  | SelDone => ((0, Some (ctx_err ctx)), w)
  | SelResult => ((l, err), w)
  end.

Definition Tell (f : ContextRespectingIoFile) (ctx : Context) (w : World)
  : (Z * option error) * World :=
  os_File_Seek (actualFile f) 0 SeekCurrent w.

Definition Seek (f : ContextRespectingIoFile) (ctx : Context)
  (offset whence : Z) (w : World) : (Z * option error) * World :=
  os_File_Seek (actualFile f) offset SeekStart w.

Definition Skip (f : ContextRespectingIoFile) (ctx : Context) (n : Z)
  (w : World) : option error * World :=
  let '((_, err), w) := os_File_Seek (actualFile f) n SeekCurrent w in
  (err, w).

Definition Close (f : ContextRespectingIoFile) (ctx : Context) (w : World)
  : option error * World :=
  let '(err, w) := asyncClose f w in
  let '(s, w) := select ctx w in
  match s with
  | SelDone => (Some (ctx_err ctx), w)
  | SelResult => (err, w)
  end.

(** ** FileAdapter *)

Definition asyncOpenRead (path : string) (w : World)
  : result ContextRespectingIoFile * World :=
  match os_Open path w with
  | (Err e, w) => (Err e, w)
  | (Ok file, w) => (Ok (NewContextRespectingIoFile file), w)
  end.

Definition asyncOpenWrite (fpath : string) (flag : Z) (w : World)
  : result ContextRespectingIoFile * World :=
  match os_MkdirAll (path_Dir E fpath) w with
  | (Some e, w) => (Err e, w)
  | (None, w) =>
    match os_OpenFile fpath flag w with
    | (Err e, w) => (Err e, w)
    | (Ok file, w) => (Ok (NewContextRespectingIoFile file), w)
    end
  end.

(** The three-way select of the open functions returns [(rc, err)]; the
    worker sends on exactly one of its two channels. *)
Definition select_open (ctx : Context)
  (r : result ContextRespectingIoFile) (w : World)
  : (option ContextRespectingIoFile * option error) * World :=
  let '(s, w) := select ctx w in
  match s with
  | SelDone => ((None, Some (ctx_err ctx)), w)
  | SelResult =>
      match r with
      | Err e => ((None, Some e), w)
      | Ok rc => ((Some rc, None), w)
      end
  end.

Definition OpenReader (ctx : Context) (fileurl : URL) (w : World)
  : (option ContextRespectingIoFile * option error) * World :=
  let '(r, w) := asyncOpenRead (Path fileurl) w in
  select_open ctx r w.

Definition OpenWriter (ctx : Context) (fileurl : URL) (w : World)
  : (option ContextRespectingIoFile * option error) * World :=
  let '(r, w) :=
    asyncOpenWrite (Path fileurl)
                   (Z.lor (Z.lor O_WRONLY O_CREATE) O_TRUNC) w in
  select_open ctx r w.

Definition OpenAppender (ctx : Context) (fileurl : URL) (w : World)
  : (option ContextRespectingIoFile * option error) * World :=
  let '(r, w) :=
    asyncOpenWrite (Path fileurl)
                   (Z.lor (Z.lor O_WRONLY O_CREATE) O_TRUNC) w in
  select_open ctx r w.

(** The worker of [ListEntries]: the deferred [f.Close()] runs after the
    result was sent, on both ways out once the directory is open. *)
Definition asnycListEntries (dirurl : URL) (w : World)
  : result (list string) * World :=
  match os_Open (Path dirurl) w with
  | (Err e, w) => (Err e, w)
  | (Ok f, w) =>
    match os_File_Readdirnames f w with
    | (Err e, w) => let '(_, w) := os_File_Close f w in (Err e, w)
    | (Ok res, w) => let '(_, w) := os_File_Close f w in (Ok res, w)
    end
  end.

(** [ListEntries] returns [(results, err)]; [results] stays the nil slice
    unless the worker delivered the names. *)
Definition ListEntries (ctx : Context) (dirurl : URL) (w : World)
  : (list string * option error) * World :=
  let '(r, w) := asnycListEntries dirurl w in
  let '(s, w) := select ctx w in
  match s with
  | SelDone => (([], Some (ctx_err ctx)), w)
  | SelResult =>
      match r with
      | Err e => (([], Some e), w)
      | Ok results => ((results, None), w)
      end
  end.

(** ** fsnotify *)

(** [fsnotify.Event] and the bits of [fsnotify.Op]. *)
Record fsEvent : Type := mkEvent { Name : string; Op : Z }.

Definition fsnotify_Create : Z := 1.
Definition fsnotify_Write : Z := 2.
Definition fsnotify_Remove : Z := 4.
Definition fsnotify_Rename : Z := 8.
Definition fsnotify_Chmod : Z := 16.

Definition fsnotify_NewWatcher (w : World) : result nat * World :=
  let w := log EvNewWatcher w in
  match newwatcher_fault E with
  | Some e => (Err e, w)
  | None => let '(wid, w) := alloc_watcher w in (Ok wid, w)
  end.

Definition Watcher_Add (wid : nat) (name : string) (w : World)
  : option error * World :=
  let w := log (EvWatchAdd wid name) w in
  match w_watchers w !! wid with
  | None => (Some ErrClosed, w)
  | Some wt =>
    if wt_closed wt then (Some ErrClosed, w)
    else
      match watchadd_fault E name with
      | Some e => (Some e, w)
      | None =>
          (None,
           set_watchers
             (<[wid := mkWatcher ({[name]} ∪ wt_paths wt) false (wt_errors wt)]>
                (w_watchers w)) w)
      end
  end.

(** [Remove] refuses a path that is not being watched. *)
Definition Watcher_Remove (wid : nat) (name : string) (w : World)
  : option error * World :=
  let w := log (EvWatchRemove wid name) w in
  match w_watchers w !! wid with
  | None => (Some ErrClosed, w)
  | Some wt =>
    match watchremove_fault E name with
    | Some e => (Some e, w)
    | None =>
        if decide (name ∈ wt_paths wt) then
          (None,
           set_watchers
             (<[wid := mkWatcher (wt_paths wt ∖ {[name]}) (wt_closed wt)
                                 (wt_errors wt)]>
                (w_watchers w)) w)
        else (Some ErrNoWatch, w)
    end
  end.

(** [Close] drops every watch; closing twice is not an error. *)
Definition Watcher_Close (wid : nat) (w : World) : option error * World :=
  let w := log (EvWatchClose wid) w in
  match w_watchers w !! wid with
  | None => (None, w)
  | Some wt =>
    if wt_closed wt then (None, w)
    else
      (watchclose_fault E,
       set_watchers (<[wid := mkWatcher ∅ true (wt_errors wt)]> (w_watchers w))
                    w)
  end.

(** [watcher.Errors <- err] *)
Definition Watcher_Errors_send (wid : nat) (e : error) (w : World) : World :=
  let w := log (EvErrSend wid e) w in
  match w_watchers w !! wid with
  | None => w
  | Some wt =>
      set_watchers
        (<[wid := mkWatcher (wt_paths wt) (wt_closed wt) (wt_errors wt ++ [e])]>
           (w_watchers w)) w
  end.

(** ** FileWatcher *)

Record FileWatcher : Type := mkFileWatcher {
  cb : FileWatchFunc;
  watcher : nat;
  path : URL;
  shutdown : bool
}.

Definition is_symlink (fi : FileInfo) : bool :=
  Z.land (Mode fi) ModeSymlink =? ModeSymlink.

(** The loop that resolves symbolic links.  It has no bound in the source;
    here it gives [None] when [fuel] rounds were not enough. *)
Fixpoint resolveSymlinks (fuel : nat) (path : URL) (fi : FileInfo) (w : World)
  : option (result (URL * FileInfo) * World) :=
  if is_symlink fi then
    match fuel with
    | O => None
    | S fuel =>
      match os_Readlink (Path path) w with
      | (Err e, w) => Some (Err e, w)
      | (Ok subpath, w) =>
        match url_Parse E path subpath with
        | Err e => Some (Err e, w)
        | Ok path =>
          match os_Stat (Path path) w with
          | (Err e, w) => Some (Err e, w)
          | (Ok fi, w) => resolveSymlinks fuel path fi w
          end
        end
      end
    end
  else Some (Ok (path, fi), w).

(** The loop over the names of a directory: the error of [OpenReader] is
    assigned and never read. *)
Fixpoint scanNames (cb : FileWatchFunc) (ctx : Context) (dpath : URL)
  (names : list string) (w : World) : option error * World :=
  match names with
  | [] => (None, w)
  | name :: names =>
    match url_Parse E dpath name with
    | Err e => (Some e, w)
    | Ok combined =>
        let '((reader, _), w) := OpenReader ctx combined w in
        let w := log (EvCallback cb combined reader) w in
        scanNames cb ctx dpath names w
    end
  end.

Definition NewFileWatcher (fuel : nat) (ctx : Context) (path : URL)
  (cb : FileWatchFunc) (w : World) : option (result FileWatcher * World) :=
  match fsnotify_NewWatcher w with
  | (Err e, w) => Some (Err e, w)
  | (Ok watcher, w) =>
    let ret := mkFileWatcher cb watcher path false in
    match os_Stat (Path path) w with
    | (Err e, w) => Some (Err e, w)
    | (Ok fi, w) =>
      match resolveSymlinks fuel path fi w with
      | None => None
      | Some (Err e, w) => Some (Err e, w)
      | Some (Ok (path, fi), w) =>
        match Watcher_Add watcher (Path path) w with
        | (Some e, w) => Some (Err e, w)
        | (None, w) =>
          if IsDir fi then
            match url_Parse E path (Path path ++ "/") with
            | Err e => Some (Err e, w)
            | Ok dpath =>
              match os_Open (Path path) w with
              | (Err e, w) => Some (Err e, w)
              | (Ok f, w) =>
                match os_File_Readdirnames f w with
                | (Err e, w) => Some (Err e, w)
                | (Ok names, w) =>
                  match scanNames cb ctx dpath names w with
                  | (Some e, w) => Some (Err e, w)
                  | (None, w) =>
                      let '(_, w) := os_File_Close f w in
                      Some (Ok ret, log (EvGoWatchForChanges watcher) w)
                  end
                end
              end
            end
          else
            match OpenReader ctx path w with
            | ((_, Some e), w) => Some (Err e, w)
            | ((reader, None), w) =>
                let w := log (EvCallback cb path reader) w in
                Some (Ok ret, log (EvGoWatchForChanges watcher) w)
            end
        end
      end
    end
  end.

Definition accepted (event : fsEvent) : bool :=
  negb (Z.land (Op event)
               (Z.lor (Z.lor fsnotify_Write fsnotify_Remove) fsnotify_Rename)
        =? 0).

(** The body of the loop of [watchForChanges] for one received event. *)
Definition handleEvent (f : FileWatcher) (event : fsEvent) (w : World)
  : World :=
  if accepted event then
    match url_Parse E (path f) (Name event) with
    | Err e => Watcher_Errors_send (watcher f) e w
    | Ok subject =>
        let '((reader, err), w) := OpenReader Background subject w in
        match err with
        | None => log (EvGoCallback (cb f) subject reader) w
        | Some e => Watcher_Errors_send (watcher f) e w
        end
    end
  else w.

(** [watchForChanges] on the events the watcher delivers, in order.  When
    they are used up the loop is blocked on the channel.  The flag is the
    one of the struct the loop runs on; a [Shutdown] racing with the loop
    is not part of this model. *)
Fixpoint watchForChanges (f : FileWatcher) (events : list fsEvent) (w : World)
  : World :=
  if shutdown f then w
  else
    match events with
    | [] => w
    | event :: events => watchForChanges f events (handleEvent f event w)
    end.

(** [Shutdown] returns its error and the struct with the flag set. *)
Definition Shutdown (f : FileWatcher) (w : World)
  : option error * FileWatcher * World :=
  let f := mkFileWatcher (cb f) (watcher f) (path f) true in
  match Watcher_Remove (watcher f) (Path (path f)) w with
  | (Some e, w) => (Some e, f, w)
  | (None, w) =>
      let '(err, w) := Watcher_Close (watcher f) w in
      (err, f, w)
  end.

(** [ErrChan]: what has been sent on the watcher's error channel. *)
Definition ErrChan (f : FileWatcher) (w : World) : list error :=
  match w_watchers w !! watcher f with
  | Some wt => wt_errors wt
  | None => []
  end.

(** [WatchFile] returns [(watcher.Shutdown, watcher.ErrChan(), nil)] or
    [(nil, nil, err)].  The cancel function is the method value of the
    watcher that was created; the channel is named by the watcher. *)
Definition WatchFile (fuel : nat) (ctx : Context) (fileurl : URL)
  (notify : FileWatchFunc) (w : World)
  : option ((option (World -> option error * FileWatcher * World)
             * option nat * option error) * World) :=
  match NewFileWatcher fuel ctx fileurl notify w with
  | None => None
  | Some (Err e, w) => Some ((None, None, Some e), w)
  | Some (Ok fw, w) =>
      Some ((Some (Shutdown fw), Some (watcher fw), None), w)
  end.

End Package.

(** * Vocabulary of the properties *)

(** ** Worlds after an open *)

(** The flag that [OpenWriter] and [OpenAppender] pass. *)
Definition write_flag : Z := Z.lor (Z.lor O_WRONLY O_CREATE) O_TRUNC.

(** The world after an [OpenFile] that was not refused and that truncated
    or created the file. *)
Definition opened_empty (name : string) (flag : Z) (w : World) : World :=
  snd (alloc_fd (mkFd name flag 0)
                (set_fs (<[name := NFile []]> (w_fs w))
                        (log (EvOpenFile name flag) w))).

Definition opened (name : string) (flag : Z) (w : World) : World :=
  snd (alloc_fd (mkFd name flag 0) (log (EvOpenFile name flag) w)).

(** ** Classes of events, and what the initial scan logs *)

(** [w'] extends the log of [w] by events of the class [P]; the watchers
    and the files are those of [w]. *)
Definition extends (P : Event -> bool) (w w' : World) : Prop :=
  (exists evs, w_trace w' = w_trace w ++ evs /\ Forall (fun e => P e = true) evs)
  /\ w_watchers w' = w_watchers w /\ w_fs w' = w_fs w.

(** The calls that set the watcher up and resolve the path. *)
Definition is_setup_event (e : Event) : bool :=
  match e with
  | EvNewWatcher | EvStat _ | EvReadlink _ => true
  | _ => false
  end.

(** The calls of the initial scan: opening the directory or a reader,
    enumerating, invoking the callback, closing the directory. *)
Definition is_scan_event (e : Event) : bool :=
  match e with
  | EvOpenFile _ _ | EvReaddirnames _ | EvCallback _ _ _ | EvFileClose _ => true
  | _ => false
  end.

(** What the scan of a directory logs for its children: the open of the
    child and then the callback on what the open returned. *)
Definition scan_events (cb : FileWatchFunc)
  (calls : list (URL * option ContextRespectingIoFile)) : list Event :=
  flat_map (fun c => [EvOpenFile (Path (fst c)) O_RDONLY;
                      EvCallback cb (fst c) (snd c)]) calls.


Definition watcher_open (w : World) (wid : nat) : Prop :=
  exists wt, w_watchers w !! wid = Some wt /\ wt_closed wt = false.

Definition watching (w : World) (wid : nat) (name : string) : Prop :=
  exists wt, w_watchers w !! wid = Some wt /\ wt_closed wt = false /\
             name ∈ wt_paths wt.

(** A failed setup has released what it acquired when every watcher that
    it created is closed and every descriptor that it opened is closed. *)
Definition released (w w' : World) : Prop :=
  (forall wid wt, w_watchers w !! wid = None ->
                  w_watchers w' !! wid = Some wt -> wt_closed wt = true) /\
  (forall fd, w_fds w !! fd = None -> w_fds w' !! fd = None).

(** Events that end a subscription or belong to the running loop. *)
Definition is_teardown_or_loop_event (e : Event) : bool :=
  match e with
  | EvWatchRemove _ _ | EvWatchClose _ | EvGoWatchForChanges _
  | EvGoCallback _ _ _ | EvErrSend _ _ => true
  | _ => false
  end.

(** The world in which the constructor, on a path that is not a symbolic
    link, has created its watcher and registered the path. *)
Definition registered (path : URL) (w : World) : World :=
  let w1 := log (EvStat (Path path)) (snd (alloc_watcher (log EvNewWatcher w))) in
  set_watchers
    (<[w_next_wid w := mkWatcher ({[Path path]} ∪ ∅) false []]> (w_watchers w1))
    (log (EvWatchAdd (w_next_wid w) (Path path)) w1).

(** ** What the processing loop hands on *)

(** The number of dispatched callbacks and of errors sent in a log. *)
Fixpoint count_reports (evs : list Event) : nat :=
  match evs with
  | [] => 0
  | EvGoCallback _ _ _ :: evs => S (count_reports evs)
  | EvErrSend _ _ :: evs => S (count_reports evs)
  | _ :: evs => count_reports evs
  end.

(** The invocations of the callback in a log, in order. *)
Fixpoint callbacks (evs : list Event)
  : list (URL * option ContextRespectingIoFile) :=
  match evs with
  | [] => []
  | EvCallback _ subject reader :: evs => (subject, reader) :: callbacks evs
  | _ :: evs => callbacks evs
  end.

(** * A concrete environment and worlds, for the examples *)

Definition slash : Ascii.ascii := Ascii.ascii_of_nat 47.

Fixpoint has_slash (s : string) : bool :=
  match s with
  | EmptyString => false
  | String c s' => if Ascii.eqb c slash then true else has_slash s'
  end.

(** Everything up to the last slash, the slash included. *)
Fixpoint dir_prefix (s : string) : string :=
  match s with
  | EmptyString => EmptyString
  | String c s' => if has_slash s then String c (dir_prefix s') else EmptyString
  end.

(** Resolution of a reference that is an absolute path or a plain name. *)
Definition demo_Parse (base : URL) (ref : string) : result URL :=
  match ref with
  | String c _ =>
      if Ascii.eqb c slash then Ok (mkURL ref)
      else Ok (mkURL (dir_prefix (Path base) ++ ref))
  | EmptyString => Ok base
  end.

Definition demo_Stat (name : string) : result FileInfo :=
  if String.eqb name "/d" then Ok (mkFileInfo (Z.lor ModeDir 493))
  else if String.eqb name "/f" || String.eqb name "/d/a.txt"
          || String.eqb name "/d/b.txt"
  then Ok (mkFileInfo 420)
  else Err ErrNotExist.

(** Nothing in the example file system is a symbolic link. *)
Definition demo_Readlink (name : string) : result string := Err ErrInval.

(** Nothing is refused; a blocking call takes one tick. *)
Definition demo_env : Env :=
  mkEnv dir_prefix demo_Parse demo_Stat demo_Readlink
        (fun _ => None) (fun _ _ => None) (fun _ => None) None
        (fun _ => None) (fun _ => None) None
        (fun _ => 1%nat) (fun _ => true).

(** As [demo_env], but the file [name] may not be opened. *)
Definition refusing_env (name : string) : Env :=
  mkEnv dir_prefix demo_Parse demo_Stat demo_Readlink
        (fun _ => None)
        (fun n _ => if String.eqb n name then Some (OSError "permission denied")
                    else None)
        (fun _ => None) None
        (fun _ => None) (fun _ => None) None
        (fun _ => 1%nat) (fun _ => true).

(** As [demo_env], but the operating system has dropped the watch (the
    watched file was deleted), so that [Remove] reports an error. *)
Definition watch_gone_env : Env :=
  mkEnv dir_prefix demo_Parse demo_Stat demo_Readlink
        (fun _ => None) (fun _ _ => None) (fun _ => None) None
        (fun _ => None) (fun _ => Some ErrNoWatch) None
        (fun _ => 1%nat) (fun _ => true).

Definition demo_fs : gmap string node :=
  <["/d"%string := NDir ["a.txt"; "b.txt"]%string]>
  (<["/d/a.txt"%string := NFile [x61]]>
  (<["/d/b.txt"%string := NFile [x62; x00]]>
  (<["/f"%string := NFile [x68; x65; x00; x6c; x6c; x6f]]> ∅))).

Definition demo_world : World := mkWorld demo_fs ∅ 3 ∅ 0 0 [].

(** [demo_world] with "/f" open for reading on descriptor 3. *)
Definition demo_open_world : World :=
  mkWorld demo_fs (<[3%nat := mkFd "/f" O_RDONLY 0]> ∅) 4 ∅ 0 0 [].

Definition demo_cb : FileWatchFunc := 7%nat.

(** As [demo_env], but no directory may be created. *)
Definition failing_mkdir_env : Env :=
  mkEnv dir_prefix demo_Parse demo_Stat demo_Readlink
        (fun _ => Some (OSError "permission denied"))
        (fun _ _ => None) (fun _ => None) None
        (fun _ => None) (fun _ => None) None
        (fun _ => 1%nat) (fun _ => true).

(** As [demo_env], but the name [name] does not resolve as a URL. *)
Definition picky_env (name : string) : Env :=
  mkEnv dir_prefix
        (fun base ref => if String.eqb ref name
                         then Err (OSError "invalid URL")
                         else demo_Parse base ref)
        demo_Stat demo_Readlink
        (fun _ => None) (fun _ _ => None) (fun _ => None) None
        (fun _ => None) (fun _ => None) None
        (fun _ => 1%nat) (fun _ => true).

(** [demo_world] with "/f" open for writing on descriptor 3, at its end. *)
Definition demo_write_world : World :=
  mkWorld demo_fs (<[3%nat := mkFd "/f" O_WRONLY 6]> ∅) 4 ∅ 0 0 [].

(** A context whose deadline has passed at time 0. *)
Definition expired : Context := mkContext (Some 0%nat) DeadlineExceeded.

Definition demo_handle : ContextRespectingIoFile :=
  NewContextRespectingIoFile 3.

(** [demo_world] with a watcher, numbered 0, on the directory "/d". *)
Definition demo_watch_world : World :=
  mkWorld demo_fs ∅ 3 (<[0%nat := mkWatcher {["/d"%string]} false []]> ∅) 1 0 [].

Definition demo_watcher : FileWatcher :=
  mkFileWatcher demo_cb 0 (mkURL "/d/") false.

(** * Children and their own handles *)









(** * Remove *)

(** The directory that holds a path, and the name of the path in it, for
    a path written without a slash at its end. *)
Fixpoint before_last_slash (s : string) : string :=
  match s with
  | EmptyString => EmptyString
  | String c s' =>
      if has_slash s' then String c (before_last_slash s') else EmptyString
  end.

Fixpoint base_name (s : string) : string :=
  match s with
  | EmptyString => EmptyString
  | String c s' => if has_slash s then base_name s' else s
  end.

Definition parent_dir (name : string) : string :=
  match before_last_slash name with
  | EmptyString =>
      match name with
      | String c _ => if Ascii.eqb c slash then "/"%string else "."%string
      | EmptyString => "."%string
      end
  | d => d
  end.

(** Taking a path out of the file system: the path goes, and the listing
    of the directory that holds it loses its name. *)
Definition unlink (name : string) (fs : gmap string node)
  : gmap string node :=
  match delete name fs !! parent_dir name with
  | Some (NDir names) =>
      <[parent_dir name :=
          NDir (List.filter (fun n => negb (String.eqb n (base_name name)))
                            names)]>
        (delete name fs)
  | _ => delete name fs
  end.

Section Removal.

Variable E : Env.

(** Whether the operating system refuses to remove a path. *)
Variable remove_fault : string -> option error.

(** [os.Remove(name)]: removes a regular file or an empty directory. *)
Definition os_Remove (name : string) (w : World) : option error * World :=
  match remove_fault name with
  | Some e => (Some e, w)
  | None =>
    match w_fs w !! name with
    | None => (Some ErrNotExist, w)
    | Some (NFile _) => (None, set_fs (unlink name (w_fs w)) w)
    | Some (NDir []) => (None, set_fs (unlink name (w_fs w)) w)
    | Some (NDir (_ :: _)) => (Some (OSError "directory not empty"), w)
    end
  end.

Definition asyncRemove (objurl : URL) (w : World) : option error * World :=
  os_Remove (Path objurl) w.

Definition Remove (ctx : Context) (objurl : URL) (w : World)
  : option error * World :=
  let '(err, w) := asyncRemove objurl w in
  let '(s, w) := select E ctx w in
  match s with
  | SelDone => (Some (ctx_err ctx), w)
  | SelResult => (err, w)
  end.

End Removal.

Section Runs.

Variable E : Env.

(** The shape of a run of the constructor after the watcher was created:
    calls of the set-up, then possibly the registration, then calls of the
    scan, and the start of the loop at the very end of a run that succeeds. *)
Inductive setup_run (cb : FileWatchFunc) (path : URL) (w : World)
  : result FileWatcher -> World -> Prop :=
| run_unregistered (e : error) (pre : list Event) (w' : World) :
    Forall (fun ev => is_setup_event ev = true) pre ->
    w_trace w' = w_trace w ++ pre ->
    setup_run cb path w (Err e) w'
| run_aborted (e : error) (pre scan : list Event) (rpath : string)
    (w' : World) :
    Forall (fun ev => is_setup_event ev = true) pre ->
    Forall (fun ev => is_scan_event ev = true) scan ->
    w_trace w' = w_trace w ++ pre ++ [EvWatchAdd (w_next_wid w) rpath] ++ scan ->
    setup_run cb path w (Err e) w'
| run_completed (pre scan : list Event) (rpath : string) (fi : FileInfo)
    (w' : World) :
    Forall (fun ev => is_setup_event ev = true) pre ->
    Forall (fun ev => is_scan_event ev = true) scan ->
    scan <> [] ->
    w_trace w' = w_trace w ++ pre ++ [EvWatchAdd (w_next_wid w) rpath] ++ scan
                   ++ [EvGoWatchForChanges (w_next_wid w)] ->
    env_Stat E rpath = Ok fi -> is_symlink fi = false ->
    watching w' (w_next_wid w) rpath ->
    setup_run cb path w (Ok (mkFileWatcher cb (w_next_wid w) path false)) w'.

End Runs.

(** * Properties *)

Section Properties.

Variable E : Env.

(** ** The select *)

Lemma select_never (ctx : Context) (w : World) :
  ctx_done_at ctx = None ->
  select E ctx w = (SelResult, set_now (w_now w + latency E (w_now w))%nat w).
Proof. intros H. unfold select. now rewrite H. Qed.

Lemma select_fires_first (ctx : Context) (w : World) :
  fires_first E ctx w -> fst (select E ctx w) = SelDone.
Proof.
  unfold fires_first, select. destruct (ctx_done_at ctx) as [d|]; [|tauto].
  intros H. apply Nat.ltb_lt in H. now rewrite H.
Qed.

Lemma os_File_Read_now (fd : nat) (b : list byte) (w : World) :
  w_now (snd (os_File_Read fd b w)) = w_now w.
Proof.
  unfold os_File_Read. destruct (w_fds w !! fd) as [d|]; [|reflexivity].
  destruct (negb (can_read (fd_flag d))); [reflexivity|].
  destruct (w_fs w !! fd_path d) as [[c|ns]|]; try reflexivity.
  destruct b; [reflexivity|]. now destruct (take _ _).
Qed.

Lemma os_File_Write_now (fd : nat) (b : list byte) (w : World) :
  w_now (snd (os_File_Write fd b w)) = w_now w.
Proof.
  unfold os_File_Write. destruct (w_fds w !! fd) as [d|]; [|reflexivity].
  destruct (negb (can_write (fd_flag d))); [reflexivity|].
  now destruct (w_fs w !! fd_path d) as [[c|ns]|].
Qed.

(** C1: when the context's signal fires strictly before the blocking call of
    the worker completes, [Read] and [Write] return the count 0 with the
    context's error, and [Read] leaves the caller's buffer as it was,
    whatever the file, its descriptor and the worker's result are. *)
Theorem cancelled_call_returns_ctx_error
  (f : ContextRespectingIoFile) (ctx : Context) (p : list byte) (w : World) :
  fires_first E ctx w ->
  fst (Read E f ctx p w) = (0, Some (ctx_err ctx), p) /\
  fst (Write E f ctx p w) = (0, Some (ctx_err ctx)).
Proof.
  intros H. split.
  - unfold Read, asyncRead.
    pose proof (os_File_Read_now (actualFile f) (make_bytes (length p)) w) as Hn.
    destruct (os_File_Read _ _ _) as [[[data l] err] w1]. simpl in Hn.
    assert (H1 : fires_first E ctx w1) by (unfold fires_first in *; now rewrite Hn).
    apply select_fires_first in H1.
    destruct (select E ctx w1) as [s w2]. simpl in H1. now subst s.
  - unfold Write, asyncWrite.
    pose proof (os_File_Write_now (actualFile f)
                  (copy (make_bytes (length p)) p) w) as Hn.
    destruct (os_File_Write _ _ _) as [[l err] w1]. simpl in Hn.
    assert (H1 : fires_first E ctx w1) by (unfold fires_first in *; now rewrite Hn).
    apply select_fires_first in H1.
    destruct (select E ctx w1) as [s w2]. simpl in H1. now subst s.
Qed.

(** ** Slices *)

Lemma copy_shorter {A : Type} (dst src : list A) :
  (length src <= length dst)%nat -> copy dst src = src ++ drop (length src) dst.
Proof. intros H. unfold copy. now rewrite take_ge. Qed.

Lemma copy_make_bytes (b : list byte) : copy (make_bytes (length b)) b = b.
Proof.
  unfold copy, make_bytes. rewrite length_replicate, firstn_all.
  rewrite drop_ge by now rewrite length_replicate. apply app_nil_r.
Qed.

Lemma drop_make_bytes (n k : nat) :
  drop k (make_bytes n) = replicate (n - k) x00.
Proof. unfold make_bytes. apply drop_replicate. Qed.

(** ** Reading and seeking *)

Lemma os_File_Read_regular (fd : nat) (b : list byte) (w : World)
  (d : fdesc) (c : list byte) :
  w_fds w !! fd = Some d ->
  can_read (fd_flag d) = true ->
  w_fs w !! fd_path d = Some (NFile c) ->
  b <> [] ->
  take (length b) (drop (Z.to_nat (fd_offset d)) c) <> [] ->
  let chunk := take (length b) (drop (Z.to_nat (fd_offset d)) c) in
  os_File_Read fd b w =
    ((copy b chunk, Z.of_nat (length chunk), None),
     set_fds (<[fd := mkFd (fd_path d) (fd_flag d)
                           (fd_offset d + Z.of_nat (length chunk))]> (w_fds w))
             w).
Proof.
  intros Hfd Hr Hfs Hb Hchunk chunk. unfold os_File_Read.
  rewrite Hfd, Hr. simpl negb. cbv iota. rewrite Hfs.
  fold chunk. fold chunk in Hchunk.
  destruct b as [|z zs]; [congruence|].
  destruct chunk as [|x xs]; [congruence|]. reflexivity.
Qed.

(** A read that is not cancelled, on a readable descriptor of a regular
    file with bytes left: the buffer receives them, the rest of the buffer
    is overwritten by the zero bytes of the worker's own buffer. *)
Lemma Read_regular_file (f : ContextRespectingIoFile) (ctx : Context)
  (p : list byte) (w : World) (d : fdesc) (c : list byte) :
  ctx_done_at ctx = None ->
  w_fds w !! actualFile f = Some d ->
  can_read (fd_flag d) = true ->
  w_fs w !! fd_path d = Some (NFile c) ->
  p <> [] ->
  take (length p) (drop (Z.to_nat (fd_offset d)) c) <> [] ->
  let chunk := take (length p) (drop (Z.to_nat (fd_offset d)) c) in
  Read E f ctx p w =
    ((Z.of_nat (length chunk), None,
      chunk ++ replicate (length p - length chunk) x00),
     set_now (w_now w + latency E (w_now w))%nat
       (set_fds (<[actualFile f :=
                     mkFd (fd_path d) (fd_flag d)
                          (fd_offset d + Z.of_nat (length chunk))]> (w_fds w))
                w)).
Proof.
  intros Hctx Hfd Hr Hfs Hp Hchunk chunk.
  assert (Hmk : length (make_bytes (length p)) = length p).
  { unfold make_bytes. apply length_replicate. }
  assert (Hlen : (length chunk <= length p)%nat).
  { subst chunk. rewrite length_take. lia. }
  unfold Read, asyncRead.
  rewrite (os_File_Read_regular (actualFile f) (make_bytes (length p)) w d c
             Hfd Hr Hfs).
  - rewrite Hmk. fold chunk. rewrite select_never by assumption.
    cbn [Error Data Length].
    rewrite (copy_shorter (make_bytes (length p)) chunk) by now rewrite Hmk.
    rewrite drop_make_bytes.
    f_equal. f_equal.
    rewrite copy_shorter.
    + rewrite drop_ge; [now rewrite app_nil_r|].
      rewrite length_app, length_replicate. lia.
    + rewrite length_app, length_replicate. lia.
  - intros Hnil. apply Hp. apply nil_length_inv. now rewrite <- Hmk, Hnil.
  - now rewrite Hmk.
Qed.

Lemma os_File_Seek_start (fd : nat) (offset : Z) (w : World) (d : fdesc) :
  w_fds w !! fd = Some d ->
  0 <= offset <= MaxInt64 ->
  os_File_Seek fd offset SeekStart w =
    ((offset, None),
     set_fds (<[fd := mkFd (fd_path d) (fd_flag d) offset]> (w_fds w)) w).
Proof.
  intros Hd [H0 Hmax]. unfold os_File_Seek. rewrite Hd.
  change (SeekStart =? SeekStart) with true. cbv iota beta zeta.
  rewrite Z.add_0_l.
  replace (offset <? 0) with false by (symmetry; apply Z.ltb_ge; lia).
  replace (MaxInt64 <? offset) with false by (symmetry; apply Z.ltb_ge; lia).
  reflexivity.
Qed.

Lemma os_File_Seek_current (fd : nat) (offset : Z) (w : World) (d : fdesc) :
  w_fds w !! fd = Some d ->
  0 <= fd_offset d + offset <= MaxInt64 ->
  os_File_Seek fd offset SeekCurrent w =
    ((fd_offset d + offset, None),
     set_fds (<[fd := mkFd (fd_path d) (fd_flag d) (fd_offset d + offset)]>
                (w_fds w)) w).
Proof.
  intros Hd [H0 Hmax]. unfold os_File_Seek. rewrite Hd.
  change (SeekCurrent =? SeekStart) with false.
  change (SeekCurrent =? SeekCurrent) with true. cbv iota beta zeta.
  replace (fd_offset d + offset <? 0) with false
    by (symmetry; apply Z.ltb_ge; lia).
  replace (MaxInt64 <? fd_offset d + offset) with false
    by (symmetry; apply Z.ltb_ge; lia).
  reflexivity.
Qed.

Lemma MaxInt64_val : MaxInt64 = 9223372036854775807.
Proof. reflexivity. Qed.

(** C4: [Seek] gives the same result for every [whence]: it is the seek
    from the start of the file.  On an open handle every offset of the
    int64 range that is not negative becomes the position, as [Tell]
    reports; in particular, after 5 bytes were read from offset 0,
    [Seek(ctx, 10, io.SeekCurrent)] lands at 10, where the seek of the
    operating system relative to the position would land at 15. *)
Theorem Seek_ignores_whence
  (f : ContextRespectingIoFile) (ctx : Context) (offset whence : Z)
  (w : World) :
  Seek f ctx offset whence w = os_File_Seek (actualFile f) offset SeekStart w /\
  (forall d, w_fds w !! actualFile f = Some d ->
     0 <= offset <= MaxInt64 ->
     exists w', Seek f ctx offset whence w = ((offset, None), w') /\
                fst (Tell f ctx w') = (offset, None)) /\
  (forall name flag c p,
     w_fds w !! actualFile f = Some (mkFd name flag 0) ->
     can_read flag = true ->
     w_fs w !! name = Some (NFile c) ->
     (5 <= length c)%nat -> length p = 5%nat ->
     ctx_done_at ctx = None ->
     exists w1 w2,
       Read E f ctx p w = ((5, None, take 5 c), w1) /\
       Seek f ctx 10 SeekCurrent w1 = ((10, None), w2) /\
       fst (Tell f ctx w2) = (10, None) /\
       fst (os_File_Seek (actualFile f) 10 SeekCurrent w1) = (15, None)).
Proof.
  split; [reflexivity|]. split.
  - intros d Hd Hoff. unfold Seek, Tell.
    rewrite (os_File_Seek_start _ _ _ d Hd Hoff).
    eexists. split; [reflexivity|].
    erewrite os_File_Seek_current; [ | simpl; apply lookup_insert_eq | ].
    + simpl. now rewrite Z.add_0_r.
    + simpl. lia.
  - intros name flag c p Hd Hr Hfs Hc Hp Hctx.
    assert (Hchunk : take (length p) (drop (Z.to_nat 0) c) = take 5 c).
    { now rewrite Hp. }
    assert (Hl : length (take 5 c) = 5%nat) by (rewrite length_take; lia).
    pose proof MaxInt64_val as HM.
    eexists. eexists. split; [|split; [|split]].
    + rewrite (Read_regular_file f ctx p w _ c Hctx Hd Hr Hfs).
      * simpl fd_offset. rewrite Hchunk, Hl, Hp. simpl replicate.
        rewrite app_nil_r. reflexivity.
      * destruct p; [discriminate | congruence].
      * simpl fd_offset. rewrite Hchunk.
        destruct (take 5 c); [discriminate | congruence].
    + unfold Seek. erewrite os_File_Seek_start; [reflexivity| |lia].
      simpl. apply lookup_insert_eq.
    + unfold Tell.
      erewrite os_File_Seek_current; [ | simpl; apply lookup_insert_eq | ].
      * reflexivity.
      * simpl. lia.
    + erewrite os_File_Seek_current; [ | simpl; apply lookup_insert_eq | ].
      * reflexivity.
      * simpl. lia.
Qed.

(** ** Opening, writing, closing *)

Lemma select_inv (ctx : Context) (w : World) :
  exists s t, select E ctx w = (s, set_now t w).
Proof.
  unfold select. destruct (ctx_done_at ctx) as [d|]; [|eauto].
  repeat (destruct (_ <? _)%nat); try destruct (tie E _); eauto.
Qed.

Lemma select_open_inv (ctx : Context) (r : result ContextRespectingIoFile)
  (w : World) :
  exists rc err t, select_open E ctx r w = ((rc, err), set_now t w) /\
    (err <> None -> rc = None) /\
    (forall e, r = Err e -> rc = None).
Proof.
  unfold select_open. destruct (select_inv ctx w) as (s & t & ->).
  destruct s; [|destruct r]; do 3 eexists; (split; [reflexivity|]);
    split; congruence.
Qed.

Lemma os_OpenFile_frame (name : string) (flag : Z) (w : World) :
  let w' := snd (os_OpenFile E name flag w) in
  w_trace w' = w_trace w ++ [EvOpenFile name flag] /\
  w_watchers w' = w_watchers w /\ w_next_wid w' = w_next_wid w /\
  w_now w' = w_now w.
Proof.
  unfold os_OpenFile. cbn [log w_fs].
  destruct (open_fault E name flag); [now simpl|].
  destruct (w_fs w !! name) as [[c|names]|].
  - now destruct (can_write flag && has_flag flag O_TRUNC).
  - now destruct (can_write flag).
  - now destruct (has_flag flag O_CREATE).
Qed.



Lemma os_OpenFile_write (name : string) (w : World) :
  open_fault E name write_flag = None ->
  (forall names, w_fs w !! name <> Some (NDir names)) ->
  os_OpenFile E name write_flag w = (Ok (w_next_fd w), opened_empty name write_flag w).
Proof.
  intros Hopen Hnd. unfold os_OpenFile. rewrite Hopen. cbn [log w_fs].
  destruct (w_fs w !! name) as [[c|names]|] eqn:Hfs.
  - reflexivity.
  - now specialize (Hnd names).
  - reflexivity.
Qed.

Lemma os_Open_existing (name : string) (w : World) (n : node) :
  open_fault E name O_RDONLY = None ->
  w_fs w !! name = Some n ->
  os_Open E name w = (Ok (w_next_fd w), opened name O_RDONLY w).
Proof.
  intros Hopen Hfs. unfold os_Open, os_OpenFile. rewrite Hopen. cbn [log w_fs].
  rewrite Hfs. now destruct n.
Qed.

Lemma asyncOpenWrite_ok (fpath : string) (w : World) :
  mkdirall_fault E (path_Dir E fpath) = None ->
  open_fault E fpath write_flag = None ->
  (forall names, w_fs w !! fpath <> Some (NDir names)) ->
  asyncOpenWrite E fpath write_flag w =
    (Ok (NewContextRespectingIoFile (w_next_fd w)),
     opened_empty fpath write_flag (log (EvMkdirAll (path_Dir E fpath)) w)).
Proof.
  intros Hmk Hopen Hnd. unfold asyncOpenWrite, os_MkdirAll. rewrite Hmk.
  now rewrite os_OpenFile_write.
Qed.

Lemma OpenReader_ok (ctx : Context) (fileurl : URL) (w : World) (n : node) :
  ctx_done_at ctx = None ->
  open_fault E (Path fileurl) O_RDONLY = None ->
  w_fs w !! Path fileurl = Some n ->
  OpenReader E ctx fileurl w =
    ((Some (NewContextRespectingIoFile (w_next_fd w)), None),
     set_now (w_now w + latency E (w_now w))%nat
             (opened (Path fileurl) O_RDONLY w)).
Proof.
  intros Hctx Hopen Hfs. unfold OpenReader, asyncOpenRead.
  rewrite (os_Open_existing _ _ n Hopen Hfs).
  unfold select_open. now rewrite select_never.
Qed.

(** A write that is not cancelled, through a descriptor at offset 0 of an
    empty regular file. *)
Lemma Write_empty_file (f : ContextRespectingIoFile) (ctx : Context)
  (b : list byte) (w : World) (name : string) (flag : Z) :
  ctx_done_at ctx = None ->
  w_fds w !! actualFile f = Some (mkFd name flag 0) ->
  can_write flag = true ->
  w_fs w !! name = Some (NFile []) ->
  Write E f ctx b w =
    ((Z.of_nat (length b), None),
     set_now (w_now w + latency E (w_now w))%nat
       (set_fds (<[actualFile f := mkFd name flag (Z.of_nat (length b))]>
                   (w_fds w))
                (set_fs (<[name := NFile b]> (w_fs w)) w))).
Proof.
  intros Hctx Hfd Hw Hfs. unfold Write, asyncWrite, os_File_Write.
  rewrite copy_make_bytes, Hfd. cbn [fd_flag fd_path fd_offset].
  rewrite Hw. simpl negb. cbv iota. rewrite Hfs.
  assert (Hoff : (if has_flag flag O_APPEND then length (@nil byte)
                  else Z.to_nat 0) = 0%nat) by now destruct (has_flag _ _).
  rewrite Hoff. cbn [take drop replicate Nat.sub app length Nat.add].
  rewrite drop_nil, app_nil_r.
  now rewrite select_never.
Qed.

Lemma Close_open (f : ContextRespectingIoFile) (ctx : Context) (w : World)
  (d : fdesc) :
  ctx_done_at ctx = None ->
  w_fds w !! actualFile f = Some d ->
  Close E f ctx w =
    (None,
     set_now (w_now w + latency E (w_now w))%nat
       (set_fds (delete (actualFile f) (w_fds w))
                (log (EvFileClose (actualFile f)) w))).
Proof.
  intros Hctx Hfd. unfold Close, asyncClose, os_File_Close. cbn [log w_fds].
  rewrite Hfd. now rewrite select_never.
Qed.

(** C5: [OpenAppender] is [OpenWriter]: it opens with
    [O_WRONLY|O_CREATE|O_TRUNC], a flag that has the truncate bit and lacks
    the append bit.  So a regular file that had content is empty once the
    open was made, under every context, and what is then written through
    the handle is the whole content of the file. *)
Theorem OpenAppender_is_OpenWriter
  (ctx : Context) (fileurl : URL) (w : World) :
  OpenAppender E ctx fileurl w = OpenWriter E ctx fileurl w /\
  (w_trace (snd (OpenAppender E ctx fileurl w)) =
     w_trace w ++ [EvMkdirAll (path_Dir E (Path fileurl))] ++
       match mkdirall_fault E (path_Dir E (Path fileurl)) with
       | None => [EvOpenFile (Path fileurl) write_flag]
       | Some _ => []
       end /\
   has_flag write_flag O_TRUNC = true /\
   has_flag write_flag O_APPEND = false) /\
  (forall old,
     w_fs w !! Path fileurl = Some (NFile old) ->
     mkdirall_fault E (path_Dir E (Path fileurl)) = None ->
     open_fault E (Path fileurl) write_flag = None ->
     w_fs (snd (OpenAppender E ctx fileurl w)) !! Path fileurl
       = Some (NFile []) /\
     (ctx_done_at ctx = None ->
      forall b, exists rc w1 w2,
        OpenAppender E ctx fileurl w = ((Some rc, None), w1) /\
        Write E rc ctx b w1 = ((Z.of_nat (length b), None), w2) /\
        w_fs w2 !! Path fileurl = Some (NFile b))).
Proof.
  split; [reflexivity|]. split.
  - unfold OpenAppender, asyncOpenWrite, os_MkdirAll. fold write_flag.
    destruct (mkdirall_fault E _).
    + destruct (select_open_inv ctx (Err e)
                  (log (EvMkdirAll (path_Dir E (Path fileurl))) w))
        as (rc & err & t & -> & _). now rewrite app_nil_r.
    + pose proof (os_OpenFile_frame (Path fileurl) write_flag
                    (log (EvMkdirAll (path_Dir E (Path fileurl))) w)) as Hf.
      destruct (os_OpenFile E _ _ _) as [[fd|e] w1]; simpl in Hf;
        destruct Hf as (Htr & _).
      * destruct (select_open_inv ctx (Ok (NewContextRespectingIoFile fd)) w1)
          as (rc & err & t & -> & _).
        simpl. rewrite Htr, <- app_assoc. auto.
      * destruct (select_open_inv ctx (Err e) w1) as (rc & err & t & -> & _).
        simpl. rewrite Htr, <- app_assoc. auto.
  - intros old Hfs Hmk Hopen.
    assert (Hnd : forall names, w_fs w !! Path fileurl <> Some (NDir names))
      by (intros names; rewrite Hfs; discriminate).
    split.
    + unfold OpenAppender. fold write_flag.
      rewrite (asyncOpenWrite_ok _ _ Hmk Hopen Hnd).
      unfold select_open, select.
      destruct (ctx_done_at ctx) as [t|];
        repeat (destruct (_ <? _)%nat); try destruct (tie E _);
        simpl; apply lookup_insert_eq.
    + intros Hctx b. unfold OpenAppender. fold write_flag.
      rewrite (asyncOpenWrite_ok _ _ Hmk Hopen Hnd).
      unfold select_open. rewrite select_never by assumption.
      eexists. eexists. eexists. split; [reflexivity|].
      erewrite (Write_empty_file _ ctx b _ (Path fileurl) write_flag Hctx).
      * split; [reflexivity|]. simpl. apply lookup_insert_eq.
      * simpl. apply lookup_insert_eq.
      * reflexivity.
      * simpl. apply lookup_insert_eq.
Qed.

(** C2: with a context that never expires and an operating system that
    refuses none of the calls, writing non-empty [data] through
    [OpenWriter], closing, and reading through [OpenReader] into a buffer
    that is large enough returns the length of [data] and stores [data]
    at the front of the buffer, for every sequence of bytes. *)
Theorem write_close_read_roundtrip
  (ctx : Context) (fileurl : URL) (data p : list byte) (w : World) :
  ctx_done_at ctx = None ->
  data <> [] ->
  (length data <= length p)%nat ->
  mkdirall_fault E (path_Dir E (Path fileurl)) = None ->
  open_fault E (Path fileurl) write_flag = None ->
  open_fault E (Path fileurl) O_RDONLY = None ->
  (forall names, w_fs w !! Path fileurl <> Some (NDir names)) ->
  exists wc w1 w2 w3 rc w4 p' w5,
    OpenWriter E ctx fileurl w = ((Some wc, None), w1) /\
    Write E wc ctx data w1 = ((Z.of_nat (length data), None), w2) /\
    Close E wc ctx w2 = (None, w3) /\
    OpenReader E ctx fileurl w3 = ((Some rc, None), w4) /\
    Read E rc ctx p w4 = ((Z.of_nat (length data), None, p'), w5) /\
    p' = data ++ replicate (length p - length data) x00 /\
    take (length data) p' = data.
Proof.
  intros Hctx Hdata Hlen Hmk Hopw Hopr Hnd.
  unfold OpenWriter. fold write_flag.
  rewrite (asyncOpenWrite_ok _ _ Hmk Hopw Hnd).
  unfold select_open. rewrite select_never by assumption.
  do 2 eexists. eexists. eexists. eexists. eexists. eexists. eexists.
  split; [reflexivity|].
  split.
  { erewrite (Write_empty_file _ ctx data _ (Path fileurl) write_flag Hctx).
    - reflexivity.
    - simpl. apply lookup_insert_eq.
    - reflexivity.
    - simpl. apply lookup_insert_eq. }
  split.
  { erewrite (Close_open _ ctx _ _ Hctx); [reflexivity|].
    simpl. apply lookup_insert_eq. }
  split.
  { erewrite (OpenReader_ok ctx fileurl _ (NFile data) Hctx Hopr);
      [reflexivity|].
    simpl. apply lookup_insert_eq. }
  assert (Hchunk : take (length p) (drop (Z.to_nat 0) data) = data).
  { simpl. now apply take_ge. }
  split; [|split; [reflexivity|]].
  - erewrite (Read_regular_file _ ctx p _ (mkFd (Path fileurl) O_RDONLY 0) data
                Hctx).
    + cbn [fd_offset]. rewrite Hchunk. reflexivity.
    + simpl. apply lookup_insert_eq.
    + reflexivity.
    + simpl. apply lookup_insert_eq.
    + intros ->. destruct data; [congruence | simpl in Hlen; lia].
    + cbn [fd_offset]. now rewrite Hchunk.
  - now rewrite take_app_length.
Qed.

(** ** Frames: what a call logs and what it leaves alone *)

Lemma extends_refl (P : Event -> bool) (w : World) : extends P w w.
Proof.
  split; [|split]; try reflexivity. exists []. split; [|constructor].
  now rewrite app_nil_r.
Qed.

Lemma extends_trans (P : Event -> bool) (w1 w2 w3 : World) :
  extends P w1 w2 -> extends P w2 w3 -> extends P w1 w3.
Proof.
  intros ((e1 & H1 & F1) & Hw1 & Hf1) ((e2 & H2 & F2) & Hw2 & Hf2).
  split; [|split]; try congruence.
  exists (e1 ++ e2). split; [|now apply Forall_app].
  now rewrite H2, H1, app_assoc.
Qed.

Lemma extends_log (P : Event -> bool) (e : Event) (w : World) :
  P e = true -> extends P w (log e w).
Proof.
  intros H. split; [|split]; try reflexivity.
  exists [e]. split; [reflexivity|]. now constructor.
Qed.

Lemma extends_set_now (P : Event -> bool) (t : nat) (w : World) :
  extends P w (set_now t w).
Proof.
  split; [|split]; try reflexivity. exists []. split; [|constructor].
  simpl. now rewrite app_nil_r.
Qed.

Lemma os_Open_fs (name : string) (w : World) :
  w_fs (snd (os_Open E name w)) = w_fs w.
Proof.
  unfold os_Open, os_OpenFile. cbn [log w_fs].
  destruct (open_fault E name O_RDONLY); [reflexivity|].
  now destruct (w_fs w !! name) as [[c|names]|].
Qed.

Lemma OpenReader_extends (ctx : Context) (fileurl : URL) (w : World) :
  extends is_scan_event w (snd (OpenReader E ctx fileurl w)).
Proof.
  unfold OpenReader, asyncOpenRead.
  pose proof (os_OpenFile_frame (Path fileurl) O_RDONLY w) as (Htr & Hw & _).
  pose proof (os_Open_fs (Path fileurl) w) as Hfs.
  unfold os_Open in *.
  destruct (os_OpenFile E _ _ w) as [[fd|e] w1]; simpl in *;
    match goal with
    | |- context [select_open E ctx ?r w1] =>
        destruct (select_open_inv ctx r w1) as (rc & err & t & -> & _)
    end;
    (split; [|split]; simpl; try assumption;
     exists [EvOpenFile (Path fileurl) O_RDONLY]; split;
       [assumption | now constructor]).
Qed.

(** Whatever [OpenReader] answers with an error, and whatever it answers
    for a path that the operating system refuses or does not have, comes
    without a handle. *)
Lemma OpenReader_nil (ctx : Context) (fileurl : URL) (w : World) :
  let r := fst (OpenReader E ctx fileurl w) in
  (snd r <> None -> fst r = None) /\
  (open_fault E (Path fileurl) O_RDONLY <> None \/
   w_fs w !! Path fileurl = None -> fst r = None).
Proof.
  unfold OpenReader, asyncOpenRead.
  destruct (os_Open E (Path fileurl) w) as [[fd|e] w1] eqn:Hop.
  - destruct (select_open_inv ctx (Ok (NewContextRespectingIoFile fd)) w1)
      as (rc & err & t & -> & H1 & _). simpl. split; [assumption|].
    intros Hbad. exfalso. unfold os_Open, os_OpenFile in Hop.
    cbn [log w_fs] in Hop.
    destruct Hbad as [Hbad | Hbad].
    + destruct (open_fault E _ _); [discriminate | congruence].
    + rewrite Hbad in Hop. destruct (open_fault E _ _); discriminate.
  - destruct (select_open_inv ctx (Err e) w1) as (rc & err & t & -> & H1 & H2).
    simpl. split; [assumption|]. intros _. now apply (H2 e).
Qed.

(** ** The loops of the constructor *)

Lemma resolveSymlinks_done (fuel : nat) (path : URL) (fi : FileInfo)
  (w : World) :
  is_symlink fi = false ->
  resolveSymlinks E fuel path fi w = Some (Ok (path, fi), w).
Proof. intros H. destruct fuel; simpl; now rewrite H. Qed.

(** The resolution logs [Readlink] and [Stat] calls only, and what it
    returns is a path with the answer of [Stat] for it, which is not a
    symbolic link. *)
Lemma resolveSymlinks_extends (fuel : nat) :
  forall (path : URL) (fi : FileInfo) (w : World) r w',
  env_Stat E (Path path) = Ok fi ->
  resolveSymlinks E fuel path fi w = Some (r, w') ->
  extends is_setup_event w w' /\
  (forall rpath rfi, r = Ok (rpath, rfi) ->
     env_Stat E (Path rpath) = Ok rfi /\ is_symlink rfi = false).
Proof.
  induction fuel as [|fuel IH]; intros path fi w r w' Hst H; simpl in H;
    destruct (is_symlink fi) eqn:Hs; try discriminate.
  - inversion H; subst. split; [apply extends_refl|].
    intros ? ? [= <- <-]. now split.
  - unfold os_Readlink, os_Stat in H.
    destruct (env_Readlink E (Path path)) as [subpath|e].
    + destruct (url_Parse E path subpath) as [path'|e].
      * destruct (env_Stat E (Path path')) as [fi'|e] eqn:Hst'.
        -- apply IH in H as [Hext Hres]; [|exact Hst']. split; [|assumption].
           eapply extends_trans; [|exact Hext].
           eapply extends_trans; now apply extends_log.
        -- inversion H; subst. split; [|congruence].
           eapply extends_trans; now apply extends_log.
      * inversion H; subst. split; [|congruence]. now apply extends_log.
    + inversion H; subst. split; [|congruence]. now apply extends_log.
  - inversion H; subst. split; [apply extends_refl|].
    intros ? ? [= <- <-]. now split.
Qed.

Lemma scanNames_extends (cb : FileWatchFunc) (ctx : Context) (dpath : URL)
  (names : list string) :
  forall w, extends is_scan_event w (snd (scanNames E cb ctx dpath names w)).
Proof.
  induction names as [|name names IH]; intros w; simpl.
  - apply extends_refl.
  - destruct (url_Parse E dpath name) as [combined|e]; [|apply extends_refl].
    pose proof (OpenReader_extends ctx combined w) as Hop.
    destruct (OpenReader E ctx combined w) as [[reader err] w1]. simpl in Hop.
    eapply extends_trans; [exact Hop|].
    eapply extends_trans; [|apply IH]. now apply extends_log.
Qed.

(** When the name of every child resolves, the loop runs to its end
    whatever the opens answer: it returns no error, it has invoked the
    callback once for every child, in order, right after the open of that
    child, and a child that could not be opened was passed on without a
    handle. *)
Lemma scanNames_all (cb : FileWatchFunc) (ctx : Context) (dpath : URL)
  (names : list string) (children : list URL) :
  Forall2 (fun name child => url_Parse E dpath name = Ok child) names children ->
  forall w, exists calls w',
    scanNames E cb ctx dpath names w = (None, w') /\
    map fst calls = children /\
    w_trace w' = w_trace w ++ scan_events cb calls /\
    Forall (fun c => open_fault E (Path (fst c)) O_RDONLY <> None \/
                     w_fs w !! Path (fst c) = None -> snd c = None) calls.
Proof.
  induction 1 as [|name child names children Hp _ IH]; intros w.
  - exists [], w. simpl. rewrite app_nil_r. repeat split. constructor.
  - simpl. rewrite Hp.
    pose proof (OpenReader_extends ctx child w) as (_ & _ & Hfs).
    pose proof (OpenReader_extends ctx child w) as ((evs & Htr & _) & _).
    pose proof (OpenReader_nil ctx child w) as (_ & Hnil).
    assert (Hev : w_trace (snd (OpenReader E ctx child w)) =
                  w_trace w ++ [EvOpenFile (Path child) O_RDONLY]).
    { unfold OpenReader, asyncOpenRead.
      pose proof (os_OpenFile_frame (Path child) O_RDONLY w) as (Ht & _).
      unfold os_Open.
      destruct (os_OpenFile E _ _ w) as [[fd|e] w1]; simpl in Ht;
        match goal with
        | |- context [select_open E ctx ?r w1] =>
            destruct (select_open_inv ctx r w1) as (rc & err & t & -> & _)
        end; exact Ht. }
    destruct (OpenReader E ctx child w) as [[reader err] w1].
    simpl in Hfs, Hnil, Hev.
    destruct (IH (log (EvCallback cb child reader) w1))
      as (calls & w' & Hscan & Hmap & Htr' & Hnone).
    exists ((child, reader) :: calls), w'. split; [exact Hscan|].
    split; [simpl; now rewrite Hmap|]. split.
    + rewrite Htr'. simpl. rewrite Hev, <- !app_assoc. reflexivity.
    + constructor; [exact Hnil|].
      simpl in Hnone. now rewrite Hfs in Hnone.
Qed.


(** ** The constructor *)

Lemma os_File_Readdirnames_extends (fd : nat) (w : World) :
  extends is_scan_event w (snd (os_File_Readdirnames E fd w)).
Proof.
  unfold os_File_Readdirnames. cbn [log w_fds w_fs].
  destruct (w_fds w !! fd) as [d|]; [|now apply extends_log].
  destruct (readdir_fault E (fd_path d)); [now apply extends_log|].
  destruct (w_fs w !! fd_path d) as [[c|names]|]; now apply extends_log.
Qed.

Lemma os_File_Close_extends (fd : nat) (w : World) :
  extends is_scan_event w (snd (os_File_Close fd w)).
Proof.
  unfold os_File_Close. cbn [log w_fds].
  destruct (w_fds w !! fd) as [d|]; [|now apply extends_log].
  split; [|split]; try reflexivity.
  exists [EvFileClose fd]. split; [reflexivity | now constructor].
Qed.

Lemma os_Open_extends (name : string) (w : World) :
  extends is_scan_event w (snd (os_Open E name w)).
Proof.
  pose proof (os_OpenFile_frame name O_RDONLY w) as (Htr & Hw & _).
  split; [|split]; [|exact Hw|apply os_Open_fs].
  exists [EvOpenFile name O_RDONLY]. split; [exact Htr | now constructor].
Qed.

Lemma extends_watcher_open (P : Event -> bool) (w w' : World) (wid : nat) :
  extends P w w' -> watcher_open w wid -> watcher_open w' wid.
Proof. intros (_ & Hw & _). unfold watcher_open. now rewrite Hw. Qed.

Lemma extends_watching (P : Event -> bool) (w w' : World) (wid : nat)
  (name : string) :
  extends P w w' -> watching w wid name -> watching w' wid name.
Proof. intros (_ & Hw & _). unfold watching. now rewrite Hw. Qed.

Lemma watcher_open_log (e : Event) (w : World) (wid : nat) :
  watcher_open w wid -> watcher_open (log e w) wid.
Proof. intros H. exact H. Qed.

Lemma watching_log (e : Event) (w : World) (wid : nat) (name : string) :
  watching w wid name -> watching (log e w) wid name.
Proof. intros H. exact H. Qed.

Lemma Watcher_Add_spec (wid : nat) (name : string) (w : World) :
  watcher_open w wid ->
  let r := Watcher_Add E wid name w in
  w_trace (snd r) = w_trace w ++ [EvWatchAdd wid name] /\
  watcher_open (snd r) wid /\
  (fst r = None -> watching (snd r) wid name).
Proof.
  intros (wt & Hwt & Hcl). unfold Watcher_Add. cbn [log w_watchers].
  rewrite Hwt, Hcl.
  destruct (watchadd_fault E name); simpl.
  - split; [reflexivity|]. split; [now exists wt | discriminate].
  - split; [reflexivity|]. unfold watcher_open, watching. simpl.
    rewrite lookup_insert_eq. split; [eauto|]. intros _.
    eexists. split; [reflexivity|]. simpl. split; [reflexivity | set_solver].
Qed.

Lemma NewFileWatcher_shape (fuel : nat) (ctx : Context) (path : URL)
  (cb : FileWatchFunc) (w : World) r w' :
  newwatcher_fault E = None ->
  NewFileWatcher E fuel ctx path cb w = Some (r, w') ->
  setup_run E cb path w r w' /\ watcher_open w' (w_next_wid w).
Proof.
  intros Hnw H. unfold NewFileWatcher, fsnotify_NewWatcher in H.
  rewrite Hnw in H. cbn [alloc_watcher log w_next_wid] in H.
  set (wid := w_next_wid w) in *.
  match type of H with
  | context [os_Stat _ _ ?w0] => set (w1 := w0) in *
  end.
  assert (Hopen1 : watcher_open w1 wid).
  { eexists. subst w1. simpl. rewrite lookup_insert_eq. now split. }
  unfold os_Stat in H.
  destruct (env_Stat E (Path path)) as [fi|e] eqn:Hst.
  { destruct (resolveSymlinks E fuel path fi _)
      as [[[[rpath rfi]|e] w2]|] eqn:Hres; [| |discriminate];
      apply (resolveSymlinks_extends _ _ _ _ _ _ Hst) in Hres
        as [((evs & Htr2 & Hevs) & Hw2 & Hfs2) Hrfi];
      assert (Hopen2 : watcher_open w2 wid)
        by (unfold watcher_open; rewrite Hw2; exact Hopen1);
      cbv beta iota zeta in H;
      simpl in Htr2;
      assert (Hpre : Forall (fun ev => is_setup_event ev = true)
                       ([EvNewWatcher; EvStat (Path path)] ++ evs))
        by (apply Forall_app; split; [now repeat constructor | exact Hevs]);
      assert (Htr2' : w_trace w2 =
                w_trace w ++ [EvNewWatcher; EvStat (Path path)] ++ evs)
        by (rewrite Htr2, <- !app_assoc; reflexivity).
    2:{ inversion H; subst. split; [|exact Hopen2].
        eapply run_unregistered; eauto. }
    destruct (Hrfi _ _ eq_refl) as [Hrst Hrsym].
    pose proof (Watcher_Add_spec wid (Path rpath) w2 Hopen2)
      as (Htr3 & Hopen3 & Hwat3).
    destruct (Watcher_Add E wid (Path rpath) w2) as [[e|] w3];
      cbv beta iota zeta in H; cbn [fst snd] in Htr3, Hopen3, Hwat3.
    { inversion H; subst. split; [|exact Hopen3].
      eapply (run_aborted _ _ _ _ _ _ []); eauto.
      rewrite Htr3, Htr2', <- !app_assoc. reflexivity. }
    specialize (Hwat3 eq_refl).
    assert (Htr3' : w_trace w3 =
              w_trace w ++ ([EvNewWatcher; EvStat (Path path)] ++ evs)
                ++ [EvWatchAdd wid (Path rpath)])
      by (rewrite Htr3, Htr2', <- !app_assoc; reflexivity).
    assert (Herr : forall w4 e, extends is_scan_event w3 w4 ->
              setup_run E cb path w (Err e) w4 /\ watcher_open w4 wid).
    { intros w4 e Hext. split; [|eapply extends_watcher_open; eauto].
      destruct Hext as ((scan & Htr4 & Hscan) & _).
      eapply (run_aborted _ _ _ _ _ _ scan); eauto.
      rewrite Htr4, Htr3', <- !app_assoc. reflexivity. }
    assert (Hok : forall w4 ev scan, extends is_scan_event w3 w4 ->
              w_trace w4 = w_trace w3 ++ ev :: scan ->
              Forall (fun e => is_scan_event e = true) (ev :: scan) ->
              setup_run E cb path w (Ok (mkFileWatcher cb wid path false))
                        (log (EvGoWatchForChanges wid) w4) /\
              watcher_open (log (EvGoWatchForChanges wid) w4) wid).
    { intros w4 ev scan Hext Htr4 Hscan.
      split; [|apply watcher_open_log; eapply extends_watcher_open; eauto].
      eapply (run_completed _ _ _ _ _ (ev :: scan)); eauto.
      - simpl. rewrite Htr4, Htr3', <- !app_assoc. reflexivity.
      - apply watching_log. eapply extends_watching; eauto. }
    destruct (IsDir rfi).
    - destruct (url_Parse E rpath _) as [dpath|e]; cbv beta iota zeta in H.
      2:{ inversion H; subst. apply Herr, extends_refl. }
      pose proof (os_Open_extends (Path rpath) w3) as Hx4.
      pose proof (os_OpenFile_frame (Path rpath) O_RDONLY w3) as (Ht4 & _).
      unfold os_Open in *.
      destruct (os_OpenFile E (Path rpath) O_RDONLY w3) as [[f|e] w4];
        cbv beta iota zeta in H; simpl in Hx4, Ht4.
      2:{ inversion H; subst. now apply Herr. }
      pose proof (os_File_Readdirnames_extends f w4) as Hx5.
      destruct (os_File_Readdirnames E f w4) as [[names|e] w5];
        cbv beta iota zeta in H; simpl in Hx5.
      2:{ inversion H; subst. apply Herr. eauto using extends_trans. }
      pose proof (scanNames_extends cb ctx dpath names w5) as Hx6.
      destruct (scanNames E cb ctx dpath names w5) as [[e|] w6];
        cbv beta iota zeta in H; simpl in Hx6.
      { inversion H; subst. apply Herr. eauto using extends_trans. }
      pose proof (os_File_Close_extends f w6) as Hx7.
      destruct (os_File_Close f w6) as [cerr w7];
        cbv beta iota zeta in H; simpl in Hx7.
      inversion H; subst r w'. clear H.
      assert (Hx : extends is_scan_event w4 w7) by eauto using extends_trans.
      destruct Hx as ((rest & Htr7 & Hrest) & Hw7 & Hfs7).
      apply (Hok w7 (EvOpenFile (Path rpath) O_RDONLY) rest).
      + eauto using extends_trans.
      + rewrite Htr7, Ht4, <- app_assoc. reflexivity.
      + now constructor.
    - pose proof (OpenReader_extends ctx rpath w3) as Hx4.
      destruct (OpenReader E ctx rpath w3) as [[reader [e|]] w4];
        cbv beta iota zeta in H; simpl in Hx4.
      { inversion H; subst. now apply Herr. }
      inversion H; subst r w'. clear H.
      destruct Hx4 as ((evs4 & Htr4 & Hevs4) & Hw4 & Hfs4).
      destruct (evs4 ++ [EvCallback cb rpath reader]) as [|ev scan] eqn:Hsc.
      { now destruct evs4. }
      apply (Hok (log (EvCallback cb rpath reader) w4) ev scan).
      + split; [|split]; simpl; [|exact Hw4|exact Hfs4].
        exists (evs4 ++ [EvCallback cb rpath reader]).
        split; [now rewrite Htr4, <- app_assoc|].
        apply Forall_app. split; [exact Hevs4 | now constructor].
      + simpl. now rewrite Htr4, <- app_assoc, Hsc.
      + rewrite <- Hsc. apply Forall_app. split; [exact Hevs4 | now constructor]. }
  inversion H; subst. split; [|exact Hopen1].
  eapply (run_unregistered _ _ _ _ _ [EvNewWatcher; EvStat (Path path)]).
  - now repeat constructor.
  - simpl. now rewrite <- app_assoc.
Qed.

(** The constructor up to the registration, on a path that is not a
    symbolic link. *)
Lemma NewFileWatcher_registered (fuel : nat) (ctx : Context) (path : URL)
  (cb : FileWatchFunc) (w : World) (fi : FileInfo) :
  newwatcher_fault E = None ->
  env_Stat E (Path path) = Ok fi ->
  is_symlink fi = false ->
  watchadd_fault E (Path path) = None ->
  NewFileWatcher E fuel ctx path cb w =
    let ret := mkFileWatcher cb (w_next_wid w) path false in
    let go := EvGoWatchForChanges (w_next_wid w) in
    if IsDir fi then
      match url_Parse E path (Path path ++ "/") with
      | Err e => Some (Err e, registered path w)
      | Ok dpath =>
        match os_Open E (Path path) (registered path w) with
        | (Err e, w4) => Some (Err e, w4)
        | (Ok f, w4) =>
          match os_File_Readdirnames E f w4 with
          | (Err e, w5) => Some (Err e, w5)
          | (Ok names, w5) =>
            match scanNames E cb ctx dpath names w5 with
            | (Some e, w6) => Some (Err e, w6)
            | (None, w6) => Some (Ok ret, log go (snd (os_File_Close f w6)))
            end
          end
        end
      end
    else
      match OpenReader E ctx path (registered path w) with
      | ((_, Some e), w4) => Some (Err e, w4)
      | ((reader, None), w4) =>
          Some (Ok ret, log go (log (EvCallback cb path reader) w4))
      end.
Proof.
  intros Hnw Hst Hsym Hadd.
  unfold NewFileWatcher, fsnotify_NewWatcher, os_Stat. rewrite Hnw, Hst.
  cbn [alloc_watcher log w_next_wid]. cbv beta iota zeta.
  rewrite (resolveSymlinks_done _ _ _ _ Hsym). cbv beta iota zeta.
  unfold Watcher_Add. cbn [log w_watchers]. rewrite lookup_insert_eq.
  cbn [wt_closed wt_paths wt_errors]. rewrite Hadd. cbv beta iota zeta.
  unfold registered. cbn [alloc_watcher log w_next_wid snd set_watchers w_watchers].
  destruct (IsDir fi); [|reflexivity].
  destruct (url_Parse E path _); [|reflexivity].
  destruct (os_Open E _ _) as [[f|e] w4]; [|reflexivity].
  destruct (os_File_Readdirnames E f w4) as [[names|e] w5]; [|reflexivity].
  destruct (scanNames E cb ctx _ names w5) as [[e|] w6]; [reflexivity|].
  now destruct (os_File_Close f w6).
Qed.

(** ** The claims about the watcher *)

(** C3: in every run of the constructor that succeeds, the log reads: calls
    of the set-up, none of them part of the scan; the registration of the
    watch, on a path for which [Stat] answered something that is not a
    symbolic link; the calls of the scan, at least one; the start of the
    processing loop.  The path is watched when the constructor returns. *)
Theorem watch_registered_before_scan (fuel : nat) (ctx : Context)
  (path : URL) (cb : FileWatchFunc) (w : World) (fw : FileWatcher)
  (w' : World) :
  NewFileWatcher E fuel ctx path cb w = Some (Ok fw, w') ->
  exists pre rpath scan fi,
    w_trace w' = w_trace w ++ pre ++ [EvWatchAdd (watcher fw) rpath] ++ scan
                   ++ [EvGoWatchForChanges (watcher fw)] /\
    Forall (fun e => is_scan_event e = false) pre /\
    Forall (fun e => is_scan_event e = true) scan /\
    scan <> [] /\
    env_Stat E rpath = Ok fi /\ is_symlink fi = false /\
    watching w' (watcher fw) rpath.
Proof.
  intros H.
  assert (Hnw : newwatcher_fault E = None).
  { unfold NewFileWatcher, fsnotify_NewWatcher in H.
    destruct (newwatcher_fault E); [discriminate | reflexivity]. }
  destruct (NewFileWatcher_shape _ _ _ _ _ _ _ Hnw H) as [Hrun _].
  inversion Hrun as [| | pre scan rpath fi w'' Hpre Hscan Hne Htr Hst Hsym Hwat];
    subst.
  exists pre, rpath, scan, fi. simpl. repeat split; try assumption.
  eapply Forall_impl; [exact Hpre|]. intros [] He; simpl in *; congruence.
Qed.

(** C8, as the code has it: when the watcher was created and the
    constructor returns an error, the loop was not started, nothing was
    sent to the error channel, and the watcher was not closed: it is
    still open when the constructor returns. *)
Theorem failed_setup_leaves_watcher_open (fuel : nat) (ctx : Context)
  (path : URL) (cb : FileWatchFunc) (w : World) (e : error) (w' : World) :
  newwatcher_fault E = None ->
  NewFileWatcher E fuel ctx path cb w = Some (Err e, w') ->
  watcher_open w' (w_next_wid w) /\
  exists evs, w_trace w' = w_trace w ++ evs /\
    Forall (fun ev => is_teardown_or_loop_event ev = false) evs.
Proof.
  intros Hnw H.
  destruct (NewFileWatcher_shape _ _ _ _ _ _ _ Hnw H) as [Hrun Hopen].
  split; [exact Hopen|].
  assert (Hs : forall l, Forall (fun ev => is_setup_event ev = true) l ->
                 Forall (fun ev => is_teardown_or_loop_event ev = false) l).
  { intros l Hl. eapply Forall_impl; [exact Hl|].
    intros [] He; simpl in *; congruence. }
  assert (Hc : forall l, Forall (fun ev => is_scan_event ev = true) l ->
                 Forall (fun ev => is_teardown_or_loop_event ev = false) l).
  { intros l Hl. eapply Forall_impl; [exact Hl|].
    intros [] He; simpl in *; congruence. }
  inversion Hrun as [e0 pre w'' Hpre Htr | e0 pre scan rpath w'' Hpre Hscan Htr | ];
    subst.
  - exists pre. split; [exact Htr | now apply Hs].
  - eexists. split; [exact Htr|].
    apply Forall_app. split; [now apply Hs|].
    apply Forall_app. split; [now repeat constructor | now apply Hc].
Qed.

(** The constructor on a directory up to the loop over the names. *)
Lemma directory_enumerated (path : URL) (w : World) (names : list string) :
  open_fault E (Path path) O_RDONLY = None ->
  w_fs w !! Path path = Some (NDir names) ->
  readdir_fault E (Path path) = None ->
  exists w5,
    os_Open E (Path path) (registered path w) =
      (Ok (w_next_fd w), opened (Path path) O_RDONLY (registered path w)) /\
    os_File_Readdirnames E (w_next_fd w)
        (opened (Path path) O_RDONLY (registered path w)) = (Ok names, w5) /\
    w_trace w5 =
      w_trace w ++ [EvNewWatcher; EvStat (Path path);
                    EvWatchAdd (w_next_wid w) (Path path);
                    EvOpenFile (Path path) O_RDONLY;
                    EvReaddirnames (w_next_fd w)] /\
    w_next_fd w5 = S (w_next_fd w) /\
    w_fs w5 = w_fs w /\
    w_fds w5 !! w_next_fd w = Some (mkFd (Path path) O_RDONLY 0) /\
    w_watchers w5 !! w_next_wid w
      = Some (mkWatcher ({[Path path]} ∪ ∅) false []).
Proof.
  intros Hopen Hfs Hrd. eexists. split.
  { exact (os_Open_existing (Path path) (registered path w) (NDir names)
             Hopen Hfs). }
  unfold os_File_Readdirnames. cbn [log w_fds w_fs opened alloc_fd snd registered
    set_watchers alloc_watcher w_next_fd].
  rewrite lookup_insert_eq. cbn [fd_path]. rewrite Hrd, Hfs.
  split; [reflexivity|]. simpl.
  rewrite !lookup_insert_eq, <- !app_assoc. repeat split.
Qed.



(** C10: on a directory, whatever the opens of the children answer, the
    constructor succeeds as soon as the name of every child resolves: the
    callback was invoked once for every child, in order, right after the
    open of that child; a child that the operating system refuses to open,
    or does not have, was passed to the callback without a handle; and
    nothing was sent to the error channel. *)
Theorem scan_discards_open_errors (fuel : nat) (ctx : Context) (path : URL)
  (cb : FileWatchFunc) (w : World) (fi : FileInfo) (dpath : URL)
  (names : list string) (children : list URL) :
  newwatcher_fault E = None ->
  env_Stat E (Path path) = Ok fi ->
  is_symlink fi = false ->
  IsDir fi = true ->
  watchadd_fault E (Path path) = None ->
  url_Parse E path (Path path ++ "/") = Ok dpath ->
  open_fault E (Path path) O_RDONLY = None ->
  w_fs w !! Path path = Some (NDir names) ->
  readdir_fault E (Path path) = None ->
  Forall2 (fun name child => url_Parse E dpath name = Ok child)
          names children ->
  exists calls w',
    NewFileWatcher E fuel ctx path cb w =
      Some (Ok (mkFileWatcher cb (w_next_wid w) path false), w') /\
    map fst calls = children /\
    w_trace w' =
      w_trace w ++ [EvNewWatcher; EvStat (Path path);
                    EvWatchAdd (w_next_wid w) (Path path);
                    EvOpenFile (Path path) O_RDONLY;
                    EvReaddirnames (w_next_fd w)]
        ++ scan_events cb calls
        ++ [EvFileClose (w_next_fd w); EvGoWatchForChanges (w_next_wid w)] /\
    Forall (fun c => open_fault E (Path (fst c)) O_RDONLY <> None \/
                     w_fs w !! Path (fst c) = None -> snd c = None) calls /\
    ErrChan (mkFileWatcher cb (w_next_wid w) path false) w' = [].
Proof.
  intros Hnw Hst Hsym Hdir Hadd Hdp Hopen Hfs Hrd Hparse.
  rewrite (NewFileWatcher_registered fuel ctx path cb w fi Hnw Hst Hsym Hadd).
  rewrite Hdir, Hdp. cbv zeta.
  destruct (directory_enumerated path w names Hopen Hfs Hrd)
    as (w5 & -> & -> & Htr5 & Hnext5 & Hfs5 & Hfd5 & Hwt5).
  destruct (scanNames_all cb ctx dpath names children Hparse w5)
    as (calls & w6 & Hscan & Hmap & Htr6 & Hnone).
  pose proof (scanNames_extends cb ctx dpath names w5) as (_ & Hw6 & _).
  rewrite Hscan in Hw6 |- *. simpl in Hw6.
  pose proof (os_File_Close_extends (w_next_fd w) w6) as ((cl & Hcl & _) & Hw7 & _).
  assert (Hcl' : w_trace (snd (os_File_Close (w_next_fd w) w6)) =
                 w_trace w6 ++ [EvFileClose (w_next_fd w)]).
  { unfold os_File_Close. cbn [log w_fds].
    now destruct (w_fds w6 !! w_next_fd w). }
  exists calls. eexists. split; [reflexivity|]. split; [exact Hmap|].
  split; [|split].
  - simpl. rewrite Hcl', Htr6, Htr5, <- !app_assoc. reflexivity.
  - rewrite Hfs5 in Hnone. exact Hnone.
  - unfold ErrChan. cbn [watcher log w_watchers].
    now rewrite Hw7, Hw6, Hwt5.
Qed.

(** ** The processing loop *)

Lemma land_14_bits (op : Z) :
  Z.land op 14 = 0 <->
  Z.testbit op 1 = false /\ Z.testbit op 2 = false /\ Z.testbit op 3 = false.
Proof.
  split.
  - intros H.
    assert (Hb : forall i, Z.testbit op i && Z.testbit 14 i = false).
    { intros i. rewrite <- Z.land_spec, H. apply Z.bits_0. }
    pose proof (Hb 1) as H1. pose proof (Hb 2) as H2. pose proof (Hb 3) as H3.
    change (Z.testbit 14 1) with true in H1.
    change (Z.testbit 14 2) with true in H2.
    change (Z.testbit 14 3) with true in H3.
    rewrite andb_true_r in H1, H2, H3. auto.
  - intros (H1 & H2 & H3). apply Z.bits_inj'. intros n Hn.
    rewrite Z.land_spec, Z.bits_0.
    assert (Hc : n = 0 \/ n = 1 \/ n = 2 \/ n = 3 \/ 4 <= n) by lia.
    destruct Hc as [-> | [-> | [-> | [-> | Hc]]]].
    + apply andb_false_r.
    + now rewrite H1.
    + now rewrite H2.
    + now rewrite H3.
    + rewrite (Z.bits_above_log2 14 n); [apply andb_false_r | lia |].
      change (Z.log2 14) with 3. lia.
Qed.

Lemma Watcher_Errors_send_trace (wid : nat) (e : error) (w : World) :
  w_trace (Watcher_Errors_send wid e w) = w_trace w ++ [EvErrSend wid e].
Proof.
  unfold Watcher_Errors_send. cbn [log w_watchers].
  now destruct (w_watchers w !! wid).
Qed.

Lemma watchForChanges_shutdown (f : FileWatcher) (events : list fsEvent)
  (w : World) :
  shutdown f = true -> watchForChanges E f events w = w.
Proof. intros H. destruct events; simpl; now rewrite H. Qed.

(** C7: an event is accepted exactly when its operation has the write, the
    remove or the rename bit.  An event that is not accepted, a bare
    create among them, leaves the world as it is: no open, no callback, no
    error.  An accepted event leads to one dispatch of the callback on a
    fresh handle or to one error on the error channel.  The loop on a
    sequence of events does what it does on the accepted ones alone. *)
Theorem only_accepted_events_dispatch (f : FileWatcher) (event : fsEvent)
  (events : list fsEvent) (w : World) :
  (accepted event = true <->
   Z.testbit (Op event) 1 = true \/ Z.testbit (Op event) 2 = true \/
   Z.testbit (Op event) 3 = true) /\
  (accepted event = false -> handleEvent E f event w = w) /\
  (Op event = fsnotify_Create -> handleEvent E f event w = w) /\
  (accepted event = true ->
   exists evs, w_trace (handleEvent E f event w) = w_trace w ++ evs /\
     ((exists e, evs = [EvErrSend (watcher f) e]) \/
      exists subject,
        url_Parse E (path f) (Name event) = Ok subject /\
        ((exists rc, evs = [EvOpenFile (Path subject) O_RDONLY;
                            EvGoCallback (cb f) subject (Some rc)]) \/
         (exists e, evs = [EvOpenFile (Path subject) O_RDONLY;
                           EvErrSend (watcher f) e])))) /\
  watchForChanges E f events w =
    watchForChanges E f (List.filter accepted events) w.
Proof.
  split; [|split; [|split; [|split]]].
  - unfold accepted.
    change (Z.lor (Z.lor fsnotify_Write fsnotify_Remove) fsnotify_Rename)
      with 14.
    rewrite negb_true_iff, Z.eqb_neq, land_14_bits.
    destruct (Z.testbit (Op event) 1), (Z.testbit (Op event) 2),
             (Z.testbit (Op event) 3); intuition congruence.
  - intros H. unfold handleEvent. now rewrite H.
  - intros H. unfold handleEvent, accepted. now rewrite H.
  - intros H. unfold handleEvent. rewrite H.
    destruct (url_Parse E (path f) (Name event)) as [subject|e].
    + pose proof (os_OpenFile_frame (Path subject) O_RDONLY w) as (Htr & _).
      unfold OpenReader, asyncOpenRead, os_Open, select_open.
      destruct (os_OpenFile E (Path subject) O_RDONLY w) as [[fd|e] w1];
        simpl in Htr; rewrite (select_never Background) by reflexivity.
      * eexists. split; [simpl; rewrite Htr, <- app_assoc; reflexivity|].
        right. exists subject. split; [reflexivity|]. left. eauto.
      * eexists. split.
        { rewrite Watcher_Errors_send_trace. simpl.
          rewrite Htr, <- app_assoc. reflexivity. }
        right. exists subject. split; [reflexivity|]. right. eauto.
    + eexists. split; [apply Watcher_Errors_send_trace|]. left. eauto.
  - revert w. induction events as [|ev events IH]; intros w; [reflexivity|].
    destruct (shutdown f) eqn:Hs.
    + now rewrite !watchForChanges_shutdown.
    + simpl. rewrite Hs. destruct (accepted ev) eqn:Ha; simpl.
      * rewrite Hs. apply IH.
      * unfold handleEvent at 1. rewrite Ha. apply IH.
Qed.

(** ** Shutdown *)

(** When [Remove] reports an error, [Shutdown] returns it at once: the
    flag is set, and the watcher is as it was. *)
Lemma Shutdown_Remove_error (f : FileWatcher) (w : World)
  (wt : watcherState) (e : error) :
  w_watchers w !! watcher f = Some wt ->
  watchremove_fault E (Path (path f)) = Some e ->
  Shutdown E f w =
    (Some e, mkFileWatcher (cb f) (watcher f) (path f) true,
     log (EvWatchRemove (watcher f) (Path (path f))) w).
Proof.
  intros Hwt Hrm. unfold Shutdown, Watcher_Remove. cbn [log w_watchers watcher path].
  now rewrite Hwt, Hrm.
Qed.

(** The same when the path of the struct is not a watched path. *)
Lemma Shutdown_unwatched_path (f : FileWatcher) (w : World)
  (wt : watcherState) :
  w_watchers w !! watcher f = Some wt ->
  watchremove_fault E (Path (path f)) = None ->
  Path (path f) ∉ wt_paths wt ->
  Shutdown E f w =
    (Some ErrNoWatch, mkFileWatcher (cb f) (watcher f) (path f) true,
     log (EvWatchRemove (watcher f) (Path (path f))) w).
Proof.
  intros Hwt Hrm Hnot. unfold Shutdown, Watcher_Remove.
  cbn [log w_watchers watcher path]. rewrite Hwt, Hrm.
  now destruct (decide (Path (path f) ∈ wt_paths wt)).
Qed.

(** When [Remove] succeeds, [Shutdown] goes on to close the watcher. *)
Lemma Shutdown_closes (f : FileWatcher) (w : World) (wt : watcherState) :
  w_watchers w !! watcher f = Some wt ->
  wt_closed wt = false ->
  watchremove_fault E (Path (path f)) = None ->
  Path (path f) ∈ wt_paths wt ->
  exists err w',
    Shutdown E f w = (err, mkFileWatcher (cb f) (watcher f) (path f) true, w') /\
    exists wt', w_watchers w' !! watcher f = Some wt' /\
                wt_closed wt' = true /\ wt_paths wt' = ∅.
Proof.
  intros Hwt Hcl Hrm Hin. unfold Shutdown, Watcher_Remove.
  cbn [log w_watchers watcher path]. rewrite Hwt, Hrm.
  destruct (decide (Path (path f) ∈ wt_paths wt)); [|contradiction].
  unfold Watcher_Close. cbn [log w_watchers set_watchers watcher].
  rewrite lookup_insert_eq. cbn [wt_closed]. rewrite Hcl.
  do 2 eexists. split; [reflexivity|]. simpl. rewrite lookup_insert_eq.
  eexists. split; [reflexivity|]. now split.
Qed.

End Properties.

(** * The theorems at concrete inputs *)

(** A deadline that has passed when a read or a write of one tick starts. *)
Lemma cancelled_call_returns_ctx_error_witness :
  fst (Read demo_env (NewContextRespectingIoFile 3)
            (mkContext (Some 0%nat) DeadlineExceeded) [x01; x02]
            demo_open_world)
    = (0, Some DeadlineExceeded, [x01; x02]) /\
  fst (Write demo_env (NewContextRespectingIoFile 3)
             (mkContext (Some 0%nat) DeadlineExceeded) [x01; x02]
             demo_open_world)
    = (0, Some DeadlineExceeded).
Proof.
  apply (cancelled_call_returns_ctx_error demo_env (NewContextRespectingIoFile 3)
           (mkContext (Some 0%nat) DeadlineExceeded) [x01; x02]
           demo_open_world).
  unfold fires_first. simpl. lia.
Defined.

(** Three bytes with a NUL in the middle, through a new file. *)
Lemma write_close_read_roundtrip_witness :
  exists wc w1 w2 w3 rc w4 p' w5,
    OpenWriter demo_env Background (mkURL "/new/out.bin") demo_world
      = ((Some wc, None), w1) /\
    Write demo_env wc Background [x68; x00; x69] w1 = ((3, None), w2) /\
    Close demo_env wc Background w2 = (None, w3) /\
    OpenReader demo_env Background (mkURL "/new/out.bin") w3
      = ((Some rc, None), w4) /\
    Read demo_env rc Background [x00; x00; x00] w4 = ((3, None, p'), w5) /\
    p' = [x68; x00; x69] ++ replicate (3 - 3) x00 /\
    take 3 p' = [x68; x00; x69].
Proof.
  apply (write_close_read_roundtrip demo_env Background (mkURL "/new/out.bin")
           [x68; x00; x69] [x00; x00; x00] demo_world).
  - reflexivity.
  - discriminate.
  - simpl. lia.
  - reflexivity.
  - reflexivity.
  - reflexivity.
  - intros names. vm_compute. discriminate.
Defined.

(** A watch on the directory "/d". *)
Lemma watch_registered_before_scan_witness :
  exists fw w',
    NewFileWatcher demo_env 0 Background (mkURL "/d") demo_cb demo_world
      = Some (Ok fw, w') /\
    exists pre rpath scan fi,
      w_trace w' = w_trace demo_world ++ pre
                     ++ [EvWatchAdd (watcher fw) rpath] ++ scan
                     ++ [EvGoWatchForChanges (watcher fw)] /\
      Forall (fun e => is_scan_event e = false) pre /\
      Forall (fun e => is_scan_event e = true) scan /\
      scan <> [] /\
      env_Stat demo_env rpath = Ok fi /\ is_symlink fi = false /\
      watching w' (watcher fw) rpath.
Proof.
  eexists. eexists. split.
  - vm_compute. reflexivity.
  - apply (watch_registered_before_scan demo_env 0 Background (mkURL "/d")
             demo_cb demo_world).
    vm_compute. reflexivity.
Defined.

(** Reading 5 bytes of "/f" and seeking to 10 relative to the position. *)
Lemma Seek_ignores_whence_witness :
  exists w1 w2,
    Read demo_env (NewContextRespectingIoFile 3) Background
         [x00; x00; x00; x00; x00] demo_open_world
      = ((5, None, [x68; x65; x00; x6c; x6c]), w1) /\
    Seek (NewContextRespectingIoFile 3) Background 10 SeekCurrent w1
      = ((10, None), w2) /\
    fst (Tell (NewContextRespectingIoFile 3) Background w2) = (10, None) /\
    fst (os_File_Seek 3 10 SeekCurrent w1) = (15, None).
Proof.
  apply (proj2 (proj2 (Seek_ignores_whence demo_env (NewContextRespectingIoFile 3)
                         Background 10 SeekCurrent demo_open_world))
           "/f"%string O_RDONLY [x68; x65; x00; x6c; x6c; x6f]
           [x00; x00; x00; x00; x00]).
  - reflexivity.
  - reflexivity.
  - reflexivity.
  - simpl. lia.
  - reflexivity.
  - reflexivity.
Defined.

(** Appending to "/f", which holds six bytes. *)
Lemma OpenAppender_is_OpenWriter_witness :
  w_fs (snd (OpenAppender demo_env Background (mkURL "/f") demo_world))
    !! "/f"%string = Some (NFile []) /\
  exists rc w1 w2,
    OpenAppender demo_env Background (mkURL "/f") demo_world
      = ((Some rc, None), w1) /\
    Write demo_env rc Background [x21] w1 = ((1, None), w2) /\
    w_fs w2 !! "/f"%string = Some (NFile [x21]).
Proof.
  destruct (proj2 (proj2 (OpenAppender_is_OpenWriter demo_env Background
                            (mkURL "/f") demo_world))
              [x68; x65; x00; x6c; x6c; x6f]
              eq_refl eq_refl eq_refl) as [Hempty Hwrite].
  split; [exact Hempty|]. exact (Hwrite eq_refl [x21]).
Defined.



(** A bare create on a watch of "/d". *)
Lemma only_accepted_events_dispatch_witness :
  handleEvent demo_env (mkFileWatcher demo_cb 0 (mkURL "/d") false)
              (mkEvent "new.txt" fsnotify_Create) demo_world
    = demo_world.
Proof.
  apply (proj1 (proj2 (proj2
           (only_accepted_events_dispatch demo_env
              (mkFileWatcher demo_cb 0 (mkURL "/d") false)
              (mkEvent "new.txt" fsnotify_Create) [] demo_world)))).
  reflexivity.
Defined.

(** C8 as the claim states it fails: a watch on "/missing", for which
    [Stat] fails right after the watcher was created, returns the error
    and leaves the watcher open. *)
Lemma failed_setup_does_not_release :
  ~ (forall e w',
       NewFileWatcher demo_env 0 Background (mkURL "/missing") demo_cb
                      demo_world = Some (Err e, w') ->
       released demo_world w').
Proof.
  intros H.
  destruct (H ErrNotExist _ eq_refl) as [Hw _].
  specialize (Hw 0%nat (mkWatcher ∅ false []) eq_refl eq_refl).
  discriminate.
Qed.

Lemma failed_setup_leaves_watcher_open_witness :
  exists w',
    NewFileWatcher demo_env 0 Background (mkURL "/missing") demo_cb demo_world
      = Some (Err ErrNotExist, w') /\
    watcher_open w' 0 /\
    exists evs, w_trace w' = w_trace demo_world ++ evs /\
      Forall (fun ev => is_teardown_or_loop_event ev = false) evs.
Proof.
  eexists. split; [reflexivity|].
  apply (failed_setup_leaves_watcher_open demo_env 0 Background
           (mkURL "/missing") demo_cb demo_world ErrNotExist);
    reflexivity.
Defined.

(** The directory "/d" when "/d/b.txt" may not be opened. *)
Lemma scan_discards_open_errors_witness :
  exists w',
    NewFileWatcher (refusing_env "/d/b.txt") 0 Background (mkURL "/d")
                   demo_cb demo_world
      = Some (Ok (mkFileWatcher demo_cb 0 (mkURL "/d") false), w') /\
    w_trace w' =
      [EvNewWatcher; EvStat "/d"; EvWatchAdd 0 "/d";
       EvOpenFile "/d" O_RDONLY; EvReaddirnames 3;
       EvOpenFile "/d/a.txt" O_RDONLY;
       EvCallback demo_cb (mkURL "/d/a.txt")
                  (Some (NewContextRespectingIoFile 4));
       EvOpenFile "/d/b.txt" O_RDONLY;
       EvCallback demo_cb (mkURL "/d/b.txt") None;
       EvFileClose 3; EvGoWatchForChanges 0] /\
    ErrChan (mkFileWatcher demo_cb 0 (mkURL "/d") false) w' = [].
Proof.
  destruct (scan_discards_open_errors (refusing_env "/d/b.txt") 0 Background
              (mkURL "/d") demo_cb demo_world
              (mkFileInfo (Z.lor ModeDir 493)) (mkURL "/d/")
              ["a.txt"; "b.txt"]%string [mkURL "/d/a.txt"; mkURL "/d/b.txt"]
              eq_refl eq_refl eq_refl eq_refl eq_refl eq_refl eq_refl eq_refl
              eq_refl)
    as (calls & w' & Hrun & Hmap & Htr & Hnone & Herr).
  - repeat constructor.
  - exists w'. split; [exact Hrun|]. split; [|exact Herr].
    assert (Hrun' := Hrun). vm_compute in Hrun'.
    injection Hrun' as <-. reflexivity.
Defined.

(** C9 fails on a subscription whose watch the operating system has
    dropped: [Remove] reports an error, [Shutdown] returns it with the
    flag set, and [Close] is not called: the watcher is still open and
    still holds its registration. *)
Lemma Shutdown_returns_before_Close :
  exists fw w1 f' w2,
    NewFileWatcher watch_gone_env 0 Background (mkURL "/f") demo_cb demo_world
      = Some (Ok fw, w1) /\
    Shutdown watch_gone_env fw w1 = (Some ErrNoWatch, f', w2) /\
    shutdown f' = true /\
    watching w2 (watcher fw) "/f" /\
    w_trace w2 = w_trace w1 ++ [EvWatchRemove (watcher fw) "/f"].
Proof.
  do 4 eexists. split; [vm_compute; reflexivity|].
  split; [vm_compute; reflexivity|]. split; [reflexivity|].
  split; [|vm_compute; reflexivity].
  eexists. split; [vm_compute; reflexivity|]. split; [reflexivity|].
  apply (bool_decide_unpack _). vm_compute. exact I.
Qed.

(** * Further properties of the package *)

Section HandleProperties.

Variable E : Env.

(** ** Reading *)

Lemma length_copy {A : Type} (dst src : list A) :
  length (copy dst src) = length dst.
Proof. unfold copy. rewrite length_app, length_take, length_drop. lia. Qed.

(** What [os.File.Read] hands back: the buffer keeps its length and the
    count lies between 0 and that length. *)
Lemma os_File_Read_bounds (fd : nat) (b : list byte) (w : World) :
  let r := fst (os_File_Read fd b w) in
  length (fst (fst r)) = length b /\ 0 <= snd (fst r) <= Z.of_nat (length b).
Proof.
  unfold os_File_Read. destruct (w_fds w !! fd) as [d|]; [|simpl; lia].
  destruct (negb (can_read (fd_flag d))); [simpl; lia|].
  destruct (w_fs w !! fd_path d) as [[c|ns]|]; try (simpl; lia).
  destruct b as [|z zs]; [simpl; lia|].
  destruct (take (length (z :: zs)) (drop (Z.to_nat (fd_offset d)) c))
    as [|x xs] eqn:Hc; [simpl; lia|].
  cbn [fst snd]. rewrite length_copy. split; [reflexivity|].
  assert (Hl : (length (x :: xs) <= length (z :: zs))%nat).
  { rewrite <- Hc, length_take. lia. }
  lia.
Qed.

(** X1: whenever [Read] returns an error, of the context or of the
    operating system, the caller's buffer holds what it held before. *)
Theorem Read_error_keeps_buffer (f : ContextRespectingIoFile) (ctx : Context)
  (p : list byte) (w : World) (l : Z) (e : error) (p' : list byte)
  (w' : World) :
  Read E f ctx p w = ((l, Some e, p'), w') -> p' = p.
Proof.
  unfold Read. destruct (asyncRead f (length p) w) as [res w1].
  destruct (select E ctx w1) as [[|] w2]; intros H.
  - now inversion H.
  - inversion H as [[Hl He Hp Hw]]. now rewrite He.
Qed.

(** X2: under every context and in every world, the count that [Read]
    returns lies between 0 and the length of the buffer, and the buffer
    keeps its length. *)
Theorem Read_count_within_buffer (f : ContextRespectingIoFile) (ctx : Context)
  (p : list byte) (w : World) :
  let r := fst (Read E f ctx p w) in
  0 <= fst (fst r) <= Z.of_nat (length p) /\ length (snd r) = length p.
Proof.
  unfold Read, asyncRead.
  pose proof (os_File_Read_bounds (actualFile f) (make_bytes (length p)) w)
    as [Hlen Hcnt].
  destruct (os_File_Read (actualFile f) (make_bytes (length p)) w)
    as [[[data l] err] w1].
  cbn [fst snd] in Hlen, Hcnt.
  assert (Hmk : length (make_bytes (length p)) = length p)
    by apply length_replicate.
  rewrite Hmk in Hlen, Hcnt.
  destruct (select E ctx w1) as [[|] w2]; cbn [fst snd Length Error Data].
  - split; [lia | reflexivity].
  - split; [exact Hcnt|]. destruct err; [reflexivity | apply length_copy].
Qed.

(** X3: a read that finds fewer bytes than the buffer holds returns their
    number and stores them at the front, and it overwrites the rest of
    the caller's buffer with zero bytes. *)
Theorem Read_short_zeroes_tail (f : ContextRespectingIoFile) (ctx : Context)
  (p : list byte) (w : World) (d : fdesc) (c : list byte) :
  ctx_done_at ctx = None ->
  w_fds w !! actualFile f = Some d ->
  can_read (fd_flag d) = true ->
  w_fs w !! fd_path d = Some (NFile c) ->
  (Z.to_nat (fd_offset d) < length c)%nat ->
  (length c - Z.to_nat (fd_offset d) < length p)%nat ->
  let rest := drop (Z.to_nat (fd_offset d)) c in
  fst (Read E f ctx p w) =
    (Z.of_nat (length rest), None,
     rest ++ replicate (length p - length rest) x00).
Proof.
  intros Hctx Hfd Hr Hfs Hlt Hshort rest.
  assert (Hrest : take (length p) (drop (Z.to_nat (fd_offset d)) c) = rest).
  { subst rest. apply take_ge. rewrite length_drop. lia. }
  rewrite (Read_regular_file E f ctx p w d c Hctx Hfd Hr Hfs).
  - cbn [fst]. now rewrite Hrest.
  - intros ->. simpl in Hshort. lia.
  - rewrite Hrest. intros Hnil. apply (f_equal length) in Hnil.
    subst rest. rewrite length_drop in Hnil. simpl in Hnil. lia.
Qed.

(** X4: at the end of the file a read into a buffer that is not empty
    returns 0 and [io.EOF]; the buffer, the position and the files are as
    before. *)
Theorem Read_at_end_of_file (f : ContextRespectingIoFile) (ctx : Context)
  (p : list byte) (w : World) (d : fdesc) (c : list byte) :
  ctx_done_at ctx = None ->
  w_fds w !! actualFile f = Some d ->
  can_read (fd_flag d) = true ->
  w_fs w !! fd_path d = Some (NFile c) ->
  (length c <= Z.to_nat (fd_offset d))%nat ->
  p <> [] ->
  Read E f ctx p w =
    ((0, Some EOF, p), set_now (w_now w + latency E (w_now w))%nat w).
Proof.
  intros Hctx Hfd Hr Hfs Hend Hp.
  unfold Read, asyncRead, os_File_Read. rewrite Hfd, Hr. simpl negb.
  cbv iota. rewrite Hfs. rewrite (drop_ge c) by lia. rewrite take_nil.
  destruct (make_bytes (length p)) as [|z zs] eqn:Hz.
  { destruct p; [congruence | discriminate]. }
  now rewrite select_never.
Qed.

(** X5: two reads that follow each other return parts of the file that
    follow each other, and [Tell] reports the position behind both. *)
Theorem Read_twice_consecutive (f : ContextRespectingIoFile) (ctx : Context)
  (p1 p2 : list byte) (w : World) (name : string) (flag : Z) (k : nat)
  (c : list byte) :
  ctx_done_at ctx = None ->
  w_fds w !! actualFile f = Some (mkFd name flag (Z.of_nat k)) ->
  can_read flag = true ->
  w_fs w !! name = Some (NFile c) ->
  p1 <> [] -> p2 <> [] ->
  (k + length p1 + length p2 <= length c)%nat ->
  Z.of_nat (length c) <= MaxInt64 ->
  exists w1 w2,
    Read E f ctx p1 w
      = ((Z.of_nat (length p1), None, take (length p1) (drop k c)), w1) /\
    Read E f ctx p2 w1
      = ((Z.of_nat (length p2), None,
          take (length p2) (drop (k + length p1) c)), w2) /\
    fst (Tell f ctx w2) = (Z.of_nat (k + length p1 + length p2), None).
Proof.
  intros Hctx Hfd Hr Hfs Hp1 Hp2 Hlen Hmax.
  assert (Hl1 : length (take (length p1) (drop k c)) = length p1).
  { rewrite length_take, length_drop. lia. }
  assert (Hl2 : length (take (length p2) (drop (k + length p1) c)) = length p2).
  { rewrite length_take, length_drop. lia. }
  assert (Hk : Z.to_nat (Z.of_nat k + Z.of_nat (length p1))
               = (k + length p1)%nat) by lia.
  eexists. eexists. split; [|split].
  - rewrite (Read_regular_file E f ctx p1 w _ c Hctx Hfd Hr Hfs Hp1);
      cbn [fd_offset fd_path fd_flag]; rewrite Nat2Z.id.
    + rewrite Hl1, Nat.sub_diag. simpl replicate. rewrite app_nil_r.
      reflexivity.
    + intros Hnil. apply (f_equal length) in Hnil. rewrite Hl1 in Hnil.
      destruct p1; [congruence | discriminate].
  - erewrite (Read_regular_file E f ctx p2 _
                (mkFd name flag (Z.of_nat k + Z.of_nat (length p1))) c Hctx);
      cbn [fd_offset fd_path fd_flag].
    + rewrite Hk, Hl2, Nat.sub_diag. simpl replicate. rewrite app_nil_r.
      reflexivity.
    + simpl. apply lookup_insert_eq.
    + exact Hr.
    + exact Hfs.
    + exact Hp2.
    + rewrite Hk.
      intros Hnil. apply (f_equal length) in Hnil. rewrite Hl2 in Hnil.
      destruct p2; [congruence | discriminate].
  - unfold Tell.
    erewrite os_File_Seek_current; [ | simpl; apply lookup_insert_eq | ].
    + cbn [fst fd_offset]. f_equal. lia.
    + cbn [fd_offset]. lia.
Qed.

(** ** Seeking, closing, writing *)

(** X6: [Skip] moves by [n] relative to the position, backwards for a
    negative [n], whatever the state of the context is; a move to before
    the start of the file is refused and leaves the position alone. *)
Theorem Skip_is_relative (f : ContextRespectingIoFile) (ctx : Context)
  (n : Z) (w : World) (d : fdesc) :
  w_fds w !! actualFile f = Some d ->
  (0 <= fd_offset d + n <= MaxInt64 ->
   exists w', Skip f ctx n w = (None, w') /\
     fst (Tell f ctx w') = (fd_offset d + n, None) /\
     w_fs w' = w_fs w) /\
  (fd_offset d + n < 0 -> Skip f ctx n w = (Some ErrInval, w)).
Proof.
  intros Hfd. split.
  - intros Hrange. unfold Skip, Tell.
    rewrite (os_File_Seek_current _ _ _ d Hfd Hrange).
    eexists. split; [reflexivity|]. split; [|reflexivity].
    erewrite os_File_Seek_current; [ | simpl; apply lookup_insert_eq | ].
    + cbn [fst fd_offset]. f_equal. lia.
    + cbn [fd_offset]. lia.
  - intros Hneg. unfold Skip, os_File_Seek. rewrite Hfd.
    change (SeekCurrent =? SeekStart) with false.
    change (SeekCurrent =? SeekCurrent) with true. cbv iota beta zeta.
    replace (fd_offset d + n <? 0) with true by (symmetry; apply Z.ltb_lt; lia).
    reflexivity.
Qed.

Lemma select_never_fst (ctx : Context) (w : World) :
  ctx_done_at ctx = None -> fst (select E ctx w) = SelResult.
Proof. intros H. now rewrite select_never. Qed.

(** X7: once [Close] has returned without error the handle is dead:
    [Read], [Write], [Seek] and a second [Close] answer [os.ErrClosed],
    [Read] leaves the buffer alone, and no file changes. *)
Theorem use_after_Close (f : ContextRespectingIoFile) (ctx : Context)
  (p b : list byte) (offset whence : Z) (w : World) (d : fdesc) :
  ctx_done_at ctx = None ->
  w_fds w !! actualFile f = Some d ->
  exists w',
    Close E f ctx w = (None, w') /\
    w_fs w' = w_fs w /\
    fst (Read E f ctx p w') = (0, Some ErrClosed, p) /\
    fst (Write E f ctx b w') = (0, Some ErrClosed) /\
    fst (Seek f ctx offset whence w') = (0, Some ErrClosed) /\
    fst (Close E f ctx w') = Some ErrClosed /\
    w_fs (snd (Write E f ctx b w')) = w_fs w.
Proof.
  intros Hctx Hfd. rewrite (Close_open E f ctx w d Hctx Hfd).
  eexists. split; [reflexivity|]. split; [reflexivity|].
  match goal with
  | |- context [Read E f ctx p ?w0] => set (w' := w0)
  end.
  assert (Hgone : w_fds w' !! actualFile f = None).
  { subst w'. simpl. apply lookup_delete_eq. }
  repeat split.
  - unfold Read, asyncRead, os_File_Read. rewrite Hgone.
    now rewrite select_never.
  - unfold Write, asyncWrite, os_File_Write. rewrite Hgone.
    now rewrite select_never.
  - unfold Seek, os_File_Seek. now rewrite Hgone.
  - unfold Close, asyncClose, os_File_Close. cbn [log w_fds]. rewrite Hgone.
    now rewrite select_never.
  - unfold Write, asyncWrite, os_File_Write. rewrite Hgone.
    now rewrite select_never.
Qed.

(** A write at the end of a regular file, or with [O_APPEND]. *)
Lemma os_File_Write_at_end (fd : nat) (b : list byte) (w : World)
  (d : fdesc) (c : list byte) :
  w_fds w !! fd = Some d ->
  can_write (fd_flag d) = true ->
  w_fs w !! fd_path d = Some (NFile c) ->
  fd_offset d = Z.of_nat (length c) ->
  os_File_Write fd b w =
    ((Z.of_nat (length b), None),
     set_fds (<[fd := mkFd (fd_path d) (fd_flag d)
                           (Z.of_nat (length c) + Z.of_nat (length b))]>
                (w_fds w))
             (set_fs (<[fd_path d := NFile (c ++ b)]> (w_fs w)) w)).
Proof.
  intros Hfd Hw Hfs Hoff. unfold os_File_Write.
  rewrite Hfd, Hw. simpl negb. cbv iota. rewrite Hfs, Hoff, Nat2Z.id.
  assert (Hif : (if has_flag (fd_flag d) O_APPEND then length c else length c)
                = length c) by now destruct (has_flag _ _).
  rewrite Hif, firstn_all, Nat.sub_diag.
  rewrite drop_ge by lia. simpl replicate. now rewrite app_nil_r.
Qed.

(** X8: a write whose context fires first reports 0 bytes and the
    context's error, and the worker has written the bytes all the same:
    they are in the file. *)
Theorem cancelled_Write_is_still_written (f : ContextRespectingIoFile)
  (ctx : Context) (b : list byte) (w : World) (d : fdesc) (c : list byte) :
  fires_first E ctx w ->
  w_fds w !! actualFile f = Some d ->
  can_write (fd_flag d) = true ->
  w_fs w !! fd_path d = Some (NFile c) ->
  fd_offset d = Z.of_nat (length c) ->
  fst (Write E f ctx b w) = (0, Some (ctx_err ctx)) /\
  w_fs (snd (Write E f ctx b w)) !! fd_path d = Some (NFile (c ++ b)).
Proof.
  intros Hfire Hfd Hw Hfs Hoff. unfold Write, asyncWrite.
  rewrite copy_make_bytes.
  rewrite (os_File_Write_at_end _ b w d c Hfd Hw Hfs Hoff).
  match goal with
  | |- context [select E ctx ?w0] =>
      pose proof (select_fires_first E ctx w0 Hfire) as Hsel;
      destruct (select_inv E ctx w0) as (s & t & Heq)
  end.
  rewrite Heq in Hsel |- *. simpl in Hsel. subst s.
  split; [reflexivity|]. simpl. apply lookup_insert_eq.
Qed.

(** X9: two writes that follow each other through a handle positioned at
    the end of the file leave the old content followed by the first and
    then the second buffer. *)
Theorem Write_twice_appends (f : ContextRespectingIoFile) (ctx : Context)
  (b1 b2 : list byte) (w : World) (d : fdesc) (c : list byte) :
  ctx_done_at ctx = None ->
  w_fds w !! actualFile f = Some d ->
  can_write (fd_flag d) = true ->
  w_fs w !! fd_path d = Some (NFile c) ->
  fd_offset d = Z.of_nat (length c) ->
  exists w1 w2,
    Write E f ctx b1 w = ((Z.of_nat (length b1), None), w1) /\
    Write E f ctx b2 w1 = ((Z.of_nat (length b2), None), w2) /\
    w_fs w2 !! fd_path d = Some (NFile (c ++ b1 ++ b2)).
Proof.
  intros Hctx Hfd Hw Hfs Hoff. unfold Write, asyncWrite.
  rewrite !copy_make_bytes.
  rewrite (os_File_Write_at_end _ b1 w d c Hfd Hw Hfs Hoff).
  rewrite select_never by assumption.
  eexists. eexists. split; [reflexivity|].
  erewrite (os_File_Write_at_end _ b2 _
              (mkFd (fd_path d) (fd_flag d)
                    (Z.of_nat (length c) + Z.of_nat (length b1)))
              (c ++ b1)).
  - rewrite select_never by assumption. split; [reflexivity|].
    simpl. rewrite lookup_insert_eq, <- app_assoc. reflexivity.
  - simpl. apply lookup_insert_eq.
  - exact Hw.
  - simpl. apply lookup_insert_eq.
  - cbn [fd_offset]. rewrite length_app. lia.
Qed.

(** X10: [Read], [Seek], [Skip] and [Tell] change no file, and [Write]
    changes no file but the one its descriptor is open on. *)
Theorem handle_operations_frame (f : ContextRespectingIoFile) (ctx : Context)
  (p : list byte) (n whence : Z) (w : World) :
  w_fs (snd (Read E f ctx p w)) = w_fs w /\
  w_fs (snd (Seek f ctx n whence w)) = w_fs w /\
  w_fs (snd (Skip f ctx n w)) = w_fs w /\
  w_fs (snd (Tell f ctx w)) = w_fs w /\
  (forall name,
     (forall d, w_fds w !! actualFile f = Some d -> fd_path d <> name) ->
     w_fs (snd (Write E f ctx p w)) !! name = w_fs w !! name).
Proof.
  assert (Hseek : forall fd o wh,
            w_fs (snd (os_File_Seek fd o wh w)) = w_fs w).
  { intros fd o wh. unfold os_File_Seek.
    destruct (w_fds w !! fd) as [d|]; [|reflexivity].
    destruct (if wh =? SeekStart then _ else _); [|reflexivity].
    now destruct (_ || _). }
  split; [|split; [|split; [|split]]].
  - unfold Read, asyncRead.
    assert (Hrd : w_fs (snd (os_File_Read (actualFile f)
                               (make_bytes (length p)) w)) = w_fs w).
    { unfold os_File_Read. destruct (w_fds w !! _) as [d|]; [|reflexivity].
      destruct (negb _); [reflexivity|].
      destruct (w_fs w !! fd_path d) as [[c|ns]|]; try reflexivity.
      destruct (make_bytes _); [reflexivity|]. now destruct (take _ _). }
    destruct (os_File_Read _ _ w) as [[[data l] err] w1]. simpl in Hrd.
    destruct (select_inv E ctx w1) as (s & t & ->). now destruct s.
  - apply Hseek.
  - unfold Skip. specialize (Hseek (actualFile f) n SeekCurrent).
    now destruct (os_File_Seek _ _ _ w) as [[? ?] ?].
  - apply Hseek.
  - intros name Hname. unfold Write, asyncWrite.
    assert (Hwr : w_fs (snd (os_File_Write (actualFile f)
                    (copy (make_bytes (length p)) p) w)) !! name
                  = w_fs w !! name).
    { unfold os_File_Write. destruct (w_fds w !! _) as [d|] eqn:Hd;
        [|reflexivity].
      destruct (negb _); [reflexivity|].
      destruct (w_fs w !! fd_path d) as [[c|ns]|]; try reflexivity.
      simpl. apply lookup_insert_ne. now apply Hname. }
    destruct (os_File_Write _ _ w) as [[l err] w1]. simpl in Hwr.
    destruct (select_inv E ctx w1) as (s & t & ->). now destruct s.
Qed.

End HandleProperties.

Section AdapterProperties.

Variable E : Env.

(** ** Opening *)

Lemma select_open_one_of (ctx : Context)
  (r : result ContextRespectingIoFile) (w : World) :
  let x := fst (select_open E ctx r w) in
  fst x = None <-> snd x <> None.
Proof.
  unfold select_open. destruct (select_inv E ctx w) as (s & t & ->).
  destruct s; [|destruct r]; simpl; split; congruence.
Qed.

(** X11: each of the three open functions returns a handle or an error,
    never both and never neither. *)
Theorem open_returns_handle_or_error (ctx : Context) (fileurl : URL)
  (w : World) :
  (fst (fst (OpenReader E ctx fileurl w)) = None
     <-> snd (fst (OpenReader E ctx fileurl w)) <> None) /\
  (fst (fst (OpenWriter E ctx fileurl w)) = None
     <-> snd (fst (OpenWriter E ctx fileurl w)) <> None) /\
  (fst (fst (OpenAppender E ctx fileurl w)) = None
     <-> snd (fst (OpenAppender E ctx fileurl w)) <> None).
Proof.
  unfold OpenReader, OpenWriter, OpenAppender.
  destruct (asyncOpenRead E (Path fileurl) w) as [r1 w1].
  destruct (asyncOpenWrite E (Path fileurl) _ w) as [r2 w2].
  split; [|split]; apply select_open_one_of.
Qed.

(** X12: [OpenReader] on a path that does not exist returns no handle and
    the error of the operating system; no descriptor is allocated and no
    file is created. *)
Theorem OpenReader_missing_file (ctx : Context) (fileurl : URL) (w : World) :
  ctx_done_at ctx = None ->
  open_fault E (Path fileurl) O_RDONLY = None ->
  w_fs w !! Path fileurl = None ->
  OpenReader E ctx fileurl w =
    ((None, Some ErrNotExist),
     set_now (w_now w + latency E (w_now w))%nat
             (log (EvOpenFile (Path fileurl) O_RDONLY) w)).
Proof.
  intros Hctx Hopen Hfs.
  unfold OpenReader, asyncOpenRead, os_Open, os_OpenFile.
  rewrite Hopen. cbn [log w_fs]. rewrite Hfs.
  change (has_flag O_RDONLY O_CREATE) with false. cbv iota.
  unfold select_open. now rewrite select_never.
Qed.

Lemma os_Open_fds (name : string) (w : World) (fd : nat) :
  fd <> w_next_fd w ->
  w_fds (snd (os_Open E name w)) !! fd = w_fds w !! fd.
Proof.
  intros Hne. unfold os_Open, os_OpenFile. cbn [log w_fs].
  destruct (open_fault E name O_RDONLY); [reflexivity|].
  destruct (w_fs w !! name) as [[c|names]|]; simpl;
    try reflexivity; now apply lookup_insert_ne.
Qed.

(** X13: under every context and whatever the operating system answers,
    [OpenReader] changes no file and no descriptor that exists. *)
Theorem OpenReader_changes_nothing (ctx : Context) (fileurl : URL)
  (w : World) :
  w_fs (snd (OpenReader E ctx fileurl w)) = w_fs w /\
  forall fd, fd <> w_next_fd w ->
    w_fds (snd (OpenReader E ctx fileurl w)) !! fd = w_fds w !! fd.
Proof.
  unfold OpenReader, asyncOpenRead.
  pose proof (os_Open_fs E (Path fileurl) w) as Hfs.
  pose proof (os_Open_fds (Path fileurl) w) as Hfds.
  destruct (os_Open E (Path fileurl) w) as [[fd0|e] w1]; simpl in Hfs, Hfds;
    match goal with
    | |- context [select_open E ctx ?r w1] =>
        destruct (select_open_inv E ctx r w1) as (rc & err & t & -> & _)
    end; split; assumption.
Qed.

(** X14: an [OpenReader] whose context fires first returns no handle and
    the context's error, and the worker has opened the file all the same:
    the descriptor is open and nobody holds it. *)
Theorem cancelled_OpenReader_leaves_descriptor (ctx : Context)
  (fileurl : URL) (w : World) (n : node) :
  fires_first E ctx w ->
  open_fault E (Path fileurl) O_RDONLY = None ->
  w_fs w !! Path fileurl = Some n ->
  fst (OpenReader E ctx fileurl w) = (None, Some (ctx_err ctx)) /\
  w_fds (snd (OpenReader E ctx fileurl w)) !! w_next_fd w
    = Some (mkFd (Path fileurl) O_RDONLY 0).
Proof.
  intros Hfire Hopen Hfs. unfold OpenReader, asyncOpenRead.
  rewrite (os_Open_existing E _ _ n Hopen Hfs). unfold select_open.
  match goal with
  | |- context [select E ctx ?w0] =>
      pose proof (select_fires_first E ctx w0 Hfire) as Hsel;
      destruct (select_inv E ctx w0) as (s & t & Heq)
  end.
  rewrite Heq in Hsel |- *. simpl in Hsel. subst s.
  split; [reflexivity|]. simpl. apply lookup_insert_eq.
Qed.

(** X15: when the parent directories cannot be created, [OpenWriter] and
    [OpenAppender] return that error and no handle; the file is not
    opened, so nothing is created or truncated. *)
Theorem OpenWriter_MkdirAll_failure (ctx : Context) (fileurl : URL)
  (w : World) (e : error) :
  ctx_done_at ctx = None ->
  mkdirall_fault E (path_Dir E (Path fileurl)) = Some e ->
  OpenWriter E ctx fileurl w =
    ((None, Some e),
     set_now (w_now w + latency E (w_now w))%nat
             (log (EvMkdirAll (path_Dir E (Path fileurl))) w)) /\
  OpenAppender E ctx fileurl w =
    ((None, Some e),
     set_now (w_now w + latency E (w_now w))%nat
             (log (EvMkdirAll (path_Dir E (Path fileurl))) w)).
Proof.
  intros Hctx Hmk.
  split; unfold OpenWriter, OpenAppender, asyncOpenWrite, os_MkdirAll;
    rewrite Hmk; unfold select_open; now rewrite select_never.
Qed.

(** X16: an [OpenWriter] whose context fires first returns no handle and
    the context's error, and the worker has truncated the file all the
    same: what it held is gone. *)
Theorem cancelled_OpenWriter_still_truncates (ctx : Context) (fileurl : URL)
  (w : World) (old : list byte) :
  fires_first E ctx w ->
  mkdirall_fault E (path_Dir E (Path fileurl)) = None ->
  open_fault E (Path fileurl) write_flag = None ->
  w_fs w !! Path fileurl = Some (NFile old) ->
  fst (OpenWriter E ctx fileurl w) = (None, Some (ctx_err ctx)) /\
  w_fs (snd (OpenWriter E ctx fileurl w)) !! Path fileurl = Some (NFile []).
Proof.
  intros Hfire Hmk Hopen Hfs.
  assert (Hnd : forall names, w_fs w !! Path fileurl <> Some (NDir names))
    by (intros names; rewrite Hfs; discriminate).
  unfold OpenWriter. fold write_flag.
  rewrite (asyncOpenWrite_ok E _ _ Hmk Hopen Hnd). unfold select_open.
  match goal with
  | |- context [select E ctx ?w0] =>
      pose proof (select_fires_first E ctx w0 Hfire) as Hsel;
      destruct (select_inv E ctx w0) as (s & t & Heq)
  end.
  rewrite Heq in Hsel |- *. simpl in Hsel. subst s.
  split; [reflexivity|]. simpl. apply lookup_insert_eq.
Qed.

(** ** Listing *)

Lemma os_File_Readdirnames_fds (fd : nat) (w : World) :
  w_fds (snd (os_File_Readdirnames E fd w)) = w_fds w.
Proof.
  unfold os_File_Readdirnames. cbn [log w_fds w_fs].
  destruct (w_fds w !! fd) as [d|]; [|reflexivity].
  destruct (readdir_fault E (fd_path d)); [reflexivity|].
  now destruct (w_fs w !! fd_path d) as [[c|names]|].
Qed.

(** X17: under every context and whatever the operating system answers,
    [ListEntries] leaves the table of descriptors and the files as they
    were: the directory it opened is closed again on every way out. *)
Theorem ListEntries_leaves_no_descriptor (ctx : Context) (dirurl : URL)
  (w : World) :
  w_fds w !! w_next_fd w = None ->
  w_fds (snd (ListEntries E ctx dirurl w)) = w_fds w /\
  w_fs (snd (ListEntries E ctx dirurl w)) = w_fs w.
Proof.
  intros Hfree. unfold ListEntries.
  assert (Hw : w_fds (snd (asnycListEntries E dirurl w)) = w_fds w /\
               w_fs (snd (asnycListEntries E dirurl w)) = w_fs w).
  { unfold asnycListEntries, os_Open.
    pose proof (os_Open_fs E (Path dirurl) w) as Hfs. unfold os_Open in Hfs.
    assert (Hop : match os_OpenFile E (Path dirurl) O_RDONLY w with
                  | (Ok f, w1) =>
                      f = w_next_fd w /\
                      w_fds w1 = <[f := mkFd (Path dirurl) O_RDONLY 0]> (w_fds w)
                  | (Err _, w1) => w_fds w1 = w_fds w
                  end).
    { unfold os_OpenFile. cbn [log w_fs].
      destruct (open_fault E _ _); [reflexivity|].
      destruct (w_fs w !! Path dirurl) as [[c|names]|]; simpl;
        try reflexivity; now split. }
    destruct (os_OpenFile E (Path dirurl) O_RDONLY w) as [[f|e] w1];
      simpl in Hfs; [|now split].
    destruct Hop as [-> Hfds1].
    pose proof (os_File_Readdirnames_fds (w_next_fd w) w1) as Hfds2.
    pose proof (os_File_Readdirnames_extends E (w_next_fd w) w1) as (_ & _ & Hfs2).
    assert (Hcl : forall w2, w_fds w2 = w_fds w1 -> w_fs w2 = w_fs w1 ->
              w_fds (snd (os_File_Close (w_next_fd w) w2)) = w_fds w /\
              w_fs (snd (os_File_Close (w_next_fd w) w2)) = w_fs w).
    { intros w2 Hf2 Hs2. unfold os_File_Close. cbn [log w_fds].
      rewrite Hf2, Hfds1, lookup_insert_eq. simpl.
      rewrite ?Hf2, ?Hfds1. split; [now apply delete_insert_id|].
      now rewrite Hs2, Hfs. }
    destruct (os_File_Readdirnames E (w_next_fd w) w1) as [[res|e] w2];
      simpl in Hfds2, Hfs2; specialize (Hcl w2 Hfds2 Hfs2);
      destruct (os_File_Close (w_next_fd w) w2) as [cerr w3]; exact Hcl. }
  destruct (asnycListEntries E dirurl w) as [r w1]. simpl in Hw.
  destruct (select_inv E ctx w1) as (s & t & ->).
  destruct s; [|destruct r]; exact Hw.
Qed.

(** X18: on a directory that may be opened and enumerated, [ListEntries]
    returns its names as the operating system lists them and no error. *)
Theorem ListEntries_directory (ctx : Context) (dirurl : URL) (w : World)
  (names : list string) :
  ctx_done_at ctx = None ->
  open_fault E (Path dirurl) O_RDONLY = None ->
  readdir_fault E (Path dirurl) = None ->
  w_fs w !! Path dirurl = Some (NDir names) ->
  fst (ListEntries E ctx dirurl w) = (names, None).
Proof.
  intros Hctx Hopen Hrd Hfs. unfold ListEntries, asnycListEntries.
  rewrite (os_Open_existing E _ _ (NDir names) Hopen Hfs).
  unfold os_File_Readdirnames. cbn [log w_fds w_fs opened alloc_fd snd].
  rewrite lookup_insert_eq. cbn [fd_path]. rewrite Hrd, Hfs.
  destruct (os_File_Close _ _) as [cerr w3].
  now rewrite select_never.
Qed.

(** X19: on a regular file [ListEntries] returns no names and the
    not-a-directory error, on a missing path no names and the
    does-not-exist error; whenever it returns an error it returns no
    names. *)
Theorem ListEntries_not_a_directory (ctx : Context) (dirurl : URL)
  (w : World) :
  (ctx_done_at ctx = None ->
   open_fault E (Path dirurl) O_RDONLY = None ->
   readdir_fault E (Path dirurl) = None ->
   (forall c, w_fs w !! Path dirurl = Some (NFile c) ->
      fst (ListEntries E ctx dirurl w) = ([], Some ErrNotDir)) /\
   (w_fs w !! Path dirurl = None ->
      fst (ListEntries E ctx dirurl w) = ([], Some ErrNotExist))) /\
  (snd (fst (ListEntries E ctx dirurl w)) <> None ->
   fst (fst (ListEntries E ctx dirurl w)) = []).
Proof.
  split.
  - intros Hctx Hopen Hrd. split.
    + intros c Hfs. unfold ListEntries, asnycListEntries.
      rewrite (os_Open_existing E _ _ (NFile c) Hopen Hfs).
      unfold os_File_Readdirnames. cbn [log w_fds w_fs opened alloc_fd snd].
      rewrite lookup_insert_eq. cbn [fd_path]. rewrite Hrd, Hfs.
      destruct (os_File_Close _ _) as [cerr w3].
      now rewrite select_never.
    + intros Hfs. unfold ListEntries, asnycListEntries, os_Open, os_OpenFile.
      rewrite Hopen. cbn [log w_fs]. rewrite Hfs.
      change (has_flag O_RDONLY O_CREATE) with false. cbv iota.
      now rewrite select_never.
  - unfold ListEntries. destruct (asnycListEntries E dirurl w) as [r w1].
    destruct (select_inv E ctx w1) as (s & t & ->).
    destruct s; [|destruct r]; simpl; congruence.
Qed.

End AdapterProperties.

Section RemoveProperties.

Variable E : Env.
Variable remove_fault : string -> option error.

Lemma unlink_gone (name : string) (fs : gmap string node) :
  unlink name fs !! name = None.
Proof.
  unfold unlink.
  destruct (delete name fs !! parent_dir name) as [[c|names]|] eqn:Hp;
    try apply lookup_delete_eq.
  destruct (decide (parent_dir name = name)) as [Heq|Hne].
  - rewrite Heq, lookup_delete_eq in Hp. discriminate.
  - rewrite lookup_insert_ne by exact Hne. apply lookup_delete_eq.
Qed.

(** X20: removing a regular file that the operating system lets go
    returns no error; from then on [OpenReader] on it finds nothing and a
    second [Remove] reports that it does not exist; the directory that
    holds it no longer lists its name, so that [ListEntries] returns the
    names that are left; and every other path is as before. *)
Theorem Remove_then_gone (ctx : Context) (objurl : URL) (w : World)
  (c : list byte) :
  ctx_done_at ctx = None ->
  remove_fault (Path objurl) = None ->
  open_fault E (Path objurl) O_RDONLY = None ->
  w_fs w !! Path objurl = Some (NFile c) ->
  exists w',
    Remove E remove_fault ctx objurl w = (None, w') /\
    fst (OpenReader E ctx objurl w') = (None, Some ErrNotExist) /\
    fst (Remove E remove_fault ctx objurl w') = Some ErrNotExist /\
    (forall names,
       w_fs w !! parent_dir (Path objurl) = Some (NDir names) ->
       let others :=
         List.filter (fun n => negb (String.eqb n (base_name (Path objurl))))
                     names in
       w_fs w' !! parent_dir (Path objurl) = Some (NDir others) /\
       (open_fault E (parent_dir (Path objurl)) O_RDONLY = None ->
        readdir_fault E (parent_dir (Path objurl)) = None ->
        fst (ListEntries E ctx (mkURL (parent_dir (Path objurl))) w')
          = (others, None))) /\
    (forall name,
       name <> Path objurl -> name <> parent_dir (Path objurl) ->
       w_fs w' !! name = w_fs w !! name).
Proof.
  intros Hctx Hrm Hopen Hfs.
  unfold Remove at 1, asyncRemove, os_Remove. rewrite Hrm, Hfs.
  rewrite select_never by assumption.
  eexists. split; [reflexivity|].
  match goal with
  | |- context [OpenReader E ctx objurl ?w0] => set (w' := w0)
  end.
  assert (Hw' : w_fs w' = unlink (Path objurl) (w_fs w)) by reflexivity.
  assert (Hgone : w_fs w' !! Path objurl = None).
  { rewrite Hw'. apply unlink_gone. }
  split; [|split; [|split]].
  - unfold OpenReader, asyncOpenRead, os_Open, os_OpenFile.
    rewrite Hopen. cbn [log w_fs]. rewrite Hgone.
    change (has_flag O_RDONLY O_CREATE) with false. cbv iota.
    unfold select_open. now rewrite select_never.
  - unfold Remove, asyncRemove, os_Remove. rewrite Hrm, Hgone.
    now rewrite select_never.
  - intros names Hpar.
    set (others := List.filter
           (fun n => negb (String.eqb n (base_name (Path objurl)))) names).
    assert (Hne : parent_dir (Path objurl) <> Path objurl).
    { intros Heq. rewrite Heq, Hfs in Hpar. discriminate. }
    assert (Hleft : w_fs w' !! parent_dir (Path objurl) = Some (NDir others)).
    { rewrite Hw'. unfold unlink.
      rewrite lookup_delete_ne by (intros Heq; now apply Hne).
      rewrite Hpar. apply lookup_insert_eq. }
    split; [exact Hleft|]. intros Hpopen Hprd.
    unfold ListEntries, asnycListEntries. cbn [Path].
    rewrite (os_Open_existing E (parent_dir (Path objurl)) w' (NDir others)
               Hpopen Hleft).
    unfold os_File_Readdirnames. cbn [log w_fds w_fs opened alloc_fd snd].
    rewrite lookup_insert_eq. cbn [fd_path]. rewrite Hprd, Hleft.
    destruct (os_File_Close _ _) as [cerr w3].
    now rewrite select_never.
  - intros name Hne Hnp. rewrite Hw'. unfold unlink.
    destruct (delete (Path objurl) (w_fs w) !! parent_dir (Path objurl))
      as [[c0|names]|].
    + now apply lookup_delete_ne.
    + rewrite lookup_insert_ne by (intros Heq; now apply Hnp).
      now apply lookup_delete_ne.
    + now apply lookup_delete_ne.
Qed.

End RemoveProperties.

Section WatcherProperties.

Variable E : Env.

(** ** The processing loop *)

Lemma count_reports_app (l1 l2 : list Event) :
  count_reports (l1 ++ l2) = (count_reports l1 + count_reports l2)%nat.
Proof.
  induction l1 as [|e l1 IH]; [reflexivity|].
  destruct e; simpl; rewrite IH; reflexivity.
Qed.

(** What the body of the loop logs for one event. *)
Lemma handleEvent_log (f : FileWatcher) (event : fsEvent) (w : World) :
  exists evs,
    w_trace (handleEvent E f event w) = w_trace w ++ evs /\
    count_reports evs = (if accepted event then 1 else 0)%nat.
Proof.
  unfold handleEvent. destruct (accepted event).
  - destruct (url_Parse E (path f) (Name event)) as [subject|e].
    + pose proof (os_OpenFile_frame E (Path subject) O_RDONLY w) as (Htr & _).
      unfold OpenReader, asyncOpenRead, os_Open, select_open.
      destruct (os_OpenFile E (Path subject) O_RDONLY w) as [[fd|e] w1];
        simpl in Htr; rewrite (select_never E Background) by reflexivity.
      * eexists. split; [simpl; rewrite Htr, <- app_assoc; reflexivity|].
        reflexivity.
      * eexists. split.
        { rewrite Watcher_Errors_send_trace. simpl.
          rewrite Htr, <- app_assoc. reflexivity. }
        reflexivity.
    + eexists. split; [apply Watcher_Errors_send_trace | reflexivity].
  - exists []. split; [now rewrite app_nil_r | reflexivity].
Qed.

(** X21: no error ends the loop.  On a watcher that is not shut down, the
    loop handles every event it is given: what it logs holds one report,
    a dispatched callback or an error sent, for each event with the
    write, the remove or the rename bit, failed re-opens included. *)
Theorem loop_reports_every_accepted_event (f : FileWatcher)
  (events : list fsEvent) (w : World) :
  shutdown f = false ->
  exists evs,
    w_trace (watchForChanges E f events w) = w_trace w ++ evs /\
    count_reports evs = length (List.filter accepted events).
Proof.
  intros Hs. revert w. induction events as [|ev events IH]; intros w.
  - exists []. simpl. rewrite Hs. split; [now rewrite app_nil_r | reflexivity].
  - simpl. rewrite Hs.
    destruct (handleEvent_log f ev w) as (e1 & Ht1 & Hc1).
    destruct (IH (handleEvent E f ev w)) as (e2 & Ht2 & Hc2).
    exists (e1 ++ e2). split.
    + now rewrite Ht2, Ht1, app_assoc.
    + rewrite count_reports_app, Hc1, Hc2.
      now destruct (accepted ev).
Qed.

(** X22: an accepted event for a path that can be opened is handed to the
    callback, in a goroutine of its own, with a handle on a descriptor
    that was free, and the error channel is left alone; an accepted event
    for a path that is gone, as after a removal, is not handed to the
    callback at all: the error of the open goes to the error channel. *)
Theorem event_goes_to_callback_or_error_channel (f : FileWatcher)
  (event : fsEvent) (w : World) (subject : URL) (wt : watcherState) :
  accepted event = true ->
  url_Parse E (path f) (Name event) = Ok subject ->
  open_fault E (Path subject) O_RDONLY = None ->
  w_watchers w !! watcher f = Some wt ->
  (forall n, w_fs w !! Path subject = Some n ->
     w_trace (handleEvent E f event w) =
       w_trace w ++ [EvOpenFile (Path subject) O_RDONLY;
                     EvGoCallback (cb f) subject
                       (Some (NewContextRespectingIoFile (w_next_fd w)))] /\
     ErrChan f (handleEvent E f event w) = ErrChan f w) /\
  (w_fs w !! Path subject = None ->
     w_trace (handleEvent E f event w) =
       w_trace w ++ [EvOpenFile (Path subject) O_RDONLY;
                     EvErrSend (watcher f) ErrNotExist] /\
     ErrChan f (handleEvent E f event w) = ErrChan f w ++ [ErrNotExist]).
Proof.
  intros Ha Hp Hopen Hwt. unfold handleEvent. rewrite Ha, Hp. split.
  - intros n Hn.
    rewrite (OpenReader_ok E Background subject w n eq_refl Hopen Hn).
    split; [simpl; now rewrite <- app_assoc | reflexivity].
  - intros Hnone.
    unfold OpenReader, asyncOpenRead, os_Open, os_OpenFile.
    rewrite Hopen. cbn [log w_fs]. rewrite Hnone.
    change (has_flag O_RDONLY O_CREATE) with false. cbv iota.
    unfold select_open. rewrite (select_never E Background) by reflexivity.
    split.
    + rewrite Watcher_Errors_send_trace. simpl. now rewrite <- app_assoc.
    + unfold ErrChan, Watcher_Errors_send. cbn [log set_now w_watchers].
      rewrite Hwt. simpl. now rewrite lookup_insert_eq.
Qed.

(** ** The constructor *)

(** X25: a watch on a single file that cannot be opened, because the
    operating system refuses the open or because the file is gone,
    returns the error of the open; the callback is not invoked and the
    loop is not started, and the registration that was made stays in
    place. *)
Theorem single_file_open_failure (fuel : nat) (ctx : Context) (path : URL)
  (cb : FileWatchFunc) (w : World) (fi : FileInfo) (e : error) :
  ctx_done_at ctx = None ->
  newwatcher_fault E = None ->
  env_Stat E (Path path) = Ok fi ->
  is_symlink fi = false -> IsDir fi = false ->
  watchadd_fault E (Path path) = None ->
  open_fault E (Path path) O_RDONLY = Some e \/
  (open_fault E (Path path) O_RDONLY = None /\
   w_fs w !! Path path = None /\ e = ErrNotExist) ->
  exists w',
    NewFileWatcher E fuel ctx path cb w = Some (Err e, w') /\
    w_trace w' =
      w_trace w ++ [EvNewWatcher; EvStat (Path path);
                    EvWatchAdd (w_next_wid w) (Path path);
                    EvOpenFile (Path path) O_RDONLY] /\
    watching w' (w_next_wid w) (Path path).
Proof.
  intros Hctx Hnw Hst Hsym Hdir Hadd Hfail.
  rewrite (NewFileWatcher_registered E fuel ctx path cb w fi Hnw Hst Hsym Hadd).
  rewrite Hdir. cbv zeta.
  unfold OpenReader, asyncOpenRead, os_Open, os_OpenFile.
  cbn [log w_fs registered set_watchers alloc_watcher snd].
  destruct Hfail as [Hopen | (Hopen & Hfs & ->)]; rewrite Hopen.
  - unfold select_open. rewrite select_never by assumption.
    eexists. split; [reflexivity|]. split.
    + simpl. rewrite <- !app_assoc. reflexivity.
    + eexists. simpl. rewrite lookup_insert_eq. split; [reflexivity|].
      split; [reflexivity | set_solver].
  - rewrite Hfs. change (has_flag O_RDONLY O_CREATE) with false. cbv iota.
    unfold select_open. rewrite select_never by assumption.
    eexists. split; [reflexivity|]. split.
    + simpl. rewrite <- !app_assoc. reflexivity.
    + eexists. simpl. rewrite lookup_insert_eq. split; [reflexivity|].
      split; [reflexivity | set_solver].
Qed.

(** X26: [WatchFile] does observe its context.  When the context fires
    before the open of a single file completes, it returns the context's
    error with no cancel function and no channel, and the callback was
    not invoked. *)
Theorem WatchFile_observes_context (fuel : nat) (ctx : Context)
  (fileurl : URL) (notify : FileWatchFunc) (w : World) (fi : FileInfo) :
  fires_first E ctx w ->
  newwatcher_fault E = None ->
  env_Stat E (Path fileurl) = Ok fi ->
  is_symlink fi = false -> IsDir fi = false ->
  watchadd_fault E (Path fileurl) = None ->
  exists w',
    WatchFile E fuel ctx fileurl notify w
      = Some ((None, None, Some (ctx_err ctx)), w') /\
    w_trace w' =
      w_trace w ++ [EvNewWatcher; EvStat (Path fileurl);
                    EvWatchAdd (w_next_wid w) (Path fileurl);
                    EvOpenFile (Path fileurl) O_RDONLY].
Proof.
  intros Hfire Hnw Hst Hsym Hdir Hadd. unfold WatchFile.
  rewrite (NewFileWatcher_registered E fuel ctx fileurl notify w fi
             Hnw Hst Hsym Hadd).
  rewrite Hdir. cbv zeta.
  unfold OpenReader, asyncOpenRead.
  pose proof (os_OpenFile_frame E (Path fileurl) O_RDONLY
                (registered fileurl w)) as (Htr & _ & _ & Hnow).
  unfold os_Open.
  destruct (os_OpenFile E (Path fileurl) O_RDONLY (registered fileurl w))
    as [r w1]. simpl in Htr, Hnow.
  assert (Hfire1 : fires_first E ctx w1).
  { unfold fires_first in *. now rewrite Hnow. }
  assert (Hsel : forall r0, select_open E ctx r0 w1
            = ((None, Some (ctx_err ctx)),
               snd (select E ctx w1))).
  { intros r0. unfold select_open.
    pose proof (select_fires_first E ctx w1 Hfire1) as Hs.
    destruct (select E ctx w1) as [s w2]. simpl in Hs. now subst s. }
  destruct r as [fd|e]; rewrite Hsel;
    (eexists; split; [reflexivity|]);
    destruct (select_inv E ctx w1) as (s & t & ->); simpl;
    rewrite Htr; simpl; rewrite <- !app_assoc; reflexivity.
Qed.

Lemma scanNames_app (cb : FileWatchFunc) (ctx : Context) (dpath : URL)
  (l1 l2 : list string) :
  forall w,
    scanNames E cb ctx dpath (l1 ++ l2) w =
      match scanNames E cb ctx dpath l1 w with
      | (Some e, w1) => (Some e, w1)
      | (None, w1) => scanNames E cb ctx dpath l2 w1
      end.
Proof.
  induction l1 as [|name l1 IH]; intros w; [reflexivity|].
  simpl. destruct (url_Parse E dpath name) as [combined|e]; [|reflexivity].
  destruct (OpenReader E ctx combined w) as [[reader err] w1]. apply IH.
Qed.

Lemma OpenReader_old_fds (ctx : Context) (fileurl : URL) (w : World) :
  (w_next_fd w <= w_next_fd (snd (OpenReader E ctx fileurl w)))%nat /\
  forall fd, (fd < w_next_fd w)%nat ->
    w_fds (snd (OpenReader E ctx fileurl w)) !! fd = w_fds w !! fd.
Proof.
  unfold OpenReader, asyncOpenRead, os_Open, os_OpenFile. cbn [log w_fs].
  destruct (open_fault E (Path fileurl) O_RDONLY).
  - destruct (select_open_inv E ctx (Err e)
                (log (EvOpenFile (Path fileurl) O_RDONLY) w))
      as (rc & err & t & -> & _). simpl. split; [lia | reflexivity].
  - destruct (w_fs w !! Path fileurl) as [[c|names]|]; simpl;
      match goal with
      | |- context [select_open E ctx ?r ?w1] =>
          destruct (select_open_inv E ctx r w1) as (rc & err & t & -> & _)
      end; simpl; (split; [lia|]); intros fd Hlt;
      try reflexivity; apply lookup_insert_ne; lia.
Qed.

Lemma scanNames_old_fds (cb : FileWatchFunc) (ctx : Context) (dpath : URL)
  (names : list string) :
  forall w fd, (fd < w_next_fd w)%nat ->
    w_fds (snd (scanNames E cb ctx dpath names w)) !! fd = w_fds w !! fd.
Proof.
  induction names as [|name names IH]; intros w fd Hlt; [reflexivity|].
  simpl. destruct (url_Parse E dpath name) as [combined|e]; [|reflexivity].
  pose proof (OpenReader_old_fds ctx combined w) as [Hle Hold].
  destruct (OpenReader E ctx combined w) as [[reader err] w1].
  simpl in Hle, Hold. rewrite IH by (simpl; lia). simpl. now apply Hold.
Qed.

(** X27: when the name of a child does not resolve as a URL, the
    constructor returns that error in the middle of the scan: the
    callback was invoked for the children before it and for none after
    it, the loop is not started, and the directory is left open. *)
Theorem scan_stops_at_unresolvable_name (fuel : nat) (ctx : Context)
  (path : URL) (cb : FileWatchFunc) (w : World) (fi : FileInfo)
  (dpath : URL) (before : list string) (bad : string) (after : list string)
  (children : list URL) (e : error) :
  newwatcher_fault E = None ->
  env_Stat E (Path path) = Ok fi ->
  is_symlink fi = false ->
  IsDir fi = true ->
  watchadd_fault E (Path path) = None ->
  url_Parse E path (Path path ++ "/") = Ok dpath ->
  open_fault E (Path path) O_RDONLY = None ->
  w_fs w !! Path path = Some (NDir (before ++ bad :: after)) ->
  readdir_fault E (Path path) = None ->
  Forall2 (fun name child => url_Parse E dpath name = Ok child)
          before children ->
  url_Parse E dpath bad = Err e ->
  exists calls w',
    NewFileWatcher E fuel ctx path cb w = Some (Err e, w') /\
    map fst calls = children /\
    w_trace w' =
      w_trace w ++ [EvNewWatcher; EvStat (Path path);
                    EvWatchAdd (w_next_wid w) (Path path);
                    EvOpenFile (Path path) O_RDONLY;
                    EvReaddirnames (w_next_fd w)]
        ++ scan_events cb calls /\
    w_fds w' !! w_next_fd w = Some (mkFd (Path path) O_RDONLY 0).
Proof.
  intros Hnw Hst Hsym Hdir Hadd Hdp Hopen Hfs Hrd Hparse Hbad.
  rewrite (NewFileWatcher_registered E fuel ctx path cb w fi Hnw Hst Hsym Hadd).
  rewrite Hdir, Hdp. cbv zeta.
  destruct (directory_enumerated E path w _ Hopen Hfs Hrd)
    as (w5 & -> & -> & Htr5 & Hnext5 & Hfs5 & Hfd5 & _).
  rewrite scanNames_app.
  destruct (scanNames_all E cb ctx dpath before children Hparse w5)
    as (calls & w6 & Hscan & Hmap & Htr6 & _).
  pose proof (scanNames_old_fds cb ctx dpath before w5 (w_next_fd w)) as Hold.
  rewrite Hscan in Hold |- *. simpl in Hold.
  simpl. rewrite Hbad.
  exists calls, w6. split; [reflexivity|]. split; [exact Hmap|]. split.
  - rewrite Htr6, Htr5, <- !app_assoc. reflexivity.
  - rewrite Hold by lia. exact Hfd5.
Qed.

(** With a context that is done and calls that take time, every select
    takes the case of the context and the clock stands still. *)
Lemma OpenReader_done (ctx : Context) (fileurl : URL) (w : World) (d : nat) :
  ctx_done_at ctx = Some d -> (d <= w_now w)%nat ->
  (forall t, 0 < latency E t)%nat ->
  exists w',
    OpenReader E ctx fileurl w = ((None, Some (ctx_err ctx)), w') /\
    w_now w' = w_now w /\
    w_trace w' = w_trace w ++ [EvOpenFile (Path fileurl) O_RDONLY].
Proof.
  intros Hd Hle Hlat. unfold OpenReader, asyncOpenRead, os_Open.
  pose proof (os_OpenFile_frame E (Path fileurl) O_RDONLY w)
    as (Htr & _ & _ & Hnow).
  destruct (os_OpenFile E (Path fileurl) O_RDONLY w) as [r w1].
  simpl in Htr, Hnow.
  assert (Hsel : select E ctx w1 = (SelDone, set_now (w_now w) w1)).
  { unfold select. rewrite Hd, Hnow. rewrite Nat.max_r by lia.
    specialize (Hlat (w_now w)).
    replace (w_now w <? w_now w + latency E (w_now w))%nat with true
      by (symmetry; apply Nat.ltb_lt; lia).
    reflexivity. }
  destruct r as [fd|e]; unfold select_open; rewrite Hsel;
    (eexists; split; [reflexivity|]); now split.
Qed.

Lemma scanNames_done (cb : FileWatchFunc) (ctx : Context) (dpath : URL)
  (names : list string) (children : list URL) (d : nat) :
  ctx_done_at ctx = Some d ->
  (forall t, 0 < latency E t)%nat ->
  Forall2 (fun name child => url_Parse E dpath name = Ok child) names children ->
  forall w, (d <= w_now w)%nat ->
    exists w',
      scanNames E cb ctx dpath names w = (None, w') /\
      w_trace w' =
        w_trace w ++ scan_events cb (map (fun c => (c, None)) children).
Proof.
  intros Hd Hlat. induction 1 as [|name child names children Hp _ IH];
    intros w Hle.
  - exists w. simpl. now rewrite app_nil_r.
  - simpl. rewrite Hp.
    destruct (OpenReader_done ctx child w d Hd Hle Hlat)
      as (w1 & -> & Hnow & Htr).
    destruct (IH (log (EvCallback cb child None) w1)) as (w' & Hscan & Htr').
    { simpl. lia. }
    exists w'. split; [exact Hscan|].
    rewrite Htr'. simpl. rewrite Htr, <- !app_assoc. reflexivity.
Qed.

(** X28: a watch on a directory under a context that is already done
    succeeds all the same: every child is opened by its worker, no open
    is waited for, and the callback is invoked once per child without a
    handle. *)
Theorem directory_scan_under_done_context (fuel : nat) (ctx : Context)
  (path : URL) (cb : FileWatchFunc) (w : World) (fi : FileInfo)
  (dpath : URL) (names : list string) (children : list URL) (d : nat) :
  ctx_done_at ctx = Some d -> (d <= w_now w)%nat ->
  (forall t, 0 < latency E t)%nat ->
  newwatcher_fault E = None ->
  env_Stat E (Path path) = Ok fi ->
  is_symlink fi = false ->
  IsDir fi = true ->
  watchadd_fault E (Path path) = None ->
  url_Parse E path (Path path ++ "/") = Ok dpath ->
  open_fault E (Path path) O_RDONLY = None ->
  w_fs w !! Path path = Some (NDir names) ->
  readdir_fault E (Path path) = None ->
  Forall2 (fun name child => url_Parse E dpath name = Ok child)
          names children ->
  exists w',
    NewFileWatcher E fuel ctx path cb w =
      Some (Ok (mkFileWatcher cb (w_next_wid w) path false), w') /\
    callbacks (drop (length (w_trace w)) (w_trace w'))
      = map (fun c => (c, None)) children.
Proof.
  intros Hd Hle Hlat Hnw Hst Hsym Hdir Hadd Hdp Hopen Hfs Hrd Hparse.
  rewrite (NewFileWatcher_registered E fuel ctx path cb w fi Hnw Hst Hsym Hadd).
  rewrite Hdir, Hdp. cbv zeta.
  rewrite (os_Open_existing E (Path path) (registered path w) (NDir names)
             Hopen Hfs).
  unfold os_File_Readdirnames.
  cbn [log w_fds w_fs opened alloc_fd snd registered set_watchers
       alloc_watcher w_next_fd].
  rewrite lookup_insert_eq. cbn [fd_path]. rewrite Hrd, Hfs.
  match goal with
  | |- context [scanNames E cb ctx dpath names ?w0] =>
      destruct (scanNames_done cb ctx dpath names children d Hd Hlat Hparse w0)
        as (w6 & -> & Htr6); [simpl; exact Hle|]
  end.
  assert (Hcl : w_trace (snd (os_File_Close (w_next_fd w) w6)) =
                w_trace w6 ++ [EvFileClose (w_next_fd w)]).
  { unfold os_File_Close. cbn [log w_fds].
    now destruct (w_fds w6 !! w_next_fd w). }
  eexists. split; [reflexivity|].
  cbn [log w_trace]. rewrite Hcl, Htr6. simpl w_trace.
  rewrite <- !app_assoc. rewrite drop_app_length.
  simpl. clear. induction children as [|c cs IH]; [reflexivity|].
  simpl. now rewrite IH.
Qed.

(** ** Setting up and shutting down *)

(** X29: after a setup that succeeded on a path that is not a symbolic
    link, when the operating system still has the watch, [Shutdown]
    removes the watch and closes the watcher: it returns what the close
    returns, the flag is set, and the watcher is closed and holds no
    registration. *)
Theorem setup_then_Shutdown_closes (fuel : nat) (ctx : Context) (fileurl : URL)
  (notify : FileWatchFunc) (w : World) (fi : FileInfo) (fw : FileWatcher)
  (w1 : World) :
  newwatcher_fault E = None ->
  env_Stat E (Path fileurl) = Ok fi ->
  is_symlink fi = false ->
  watchadd_fault E (Path fileurl) = None ->
  watchremove_fault E (Path fileurl) = None ->
  NewFileWatcher E fuel ctx fileurl notify w = Some (Ok fw, w1) ->
  exists err f' w2 wt,
    Shutdown E fw w1 = (err, f', w2) /\
    err = watchclose_fault E /\
    shutdown f' = true /\
    w_watchers w2 !! watcher fw = Some wt /\
    wt_closed wt = true /\ wt_paths wt = ∅.
Proof.
  intros Hnw Hst Hsym Hadd Hrm H.
  rewrite (NewFileWatcher_registered E fuel ctx fileurl notify w fi Hnw Hst Hsym Hadd)
    in H.
  cbv zeta in H.
  assert (Hreg : w_watchers (registered fileurl w) !! w_next_wid w
                 = Some (mkWatcher ({[Path fileurl]} ∪ ∅) false [])).
  { simpl. apply lookup_insert_eq. }
  assert (Hfw : fw = mkFileWatcher notify (w_next_wid w) fileurl false /\
                w_watchers w1 = w_watchers (registered fileurl w)).
  { destruct (IsDir fi).
    - destruct (url_Parse E fileurl _) as [dpath|e]; [|discriminate].
      pose proof (os_Open_extends E (Path fileurl) (registered fileurl w))
        as (_ & Hw4 & _).
      destruct (os_Open E (Path fileurl) (registered fileurl w)) as [[f|e] w4];
        [|discriminate]. simpl in Hw4.
      pose proof (os_File_Readdirnames_extends E f w4) as (_ & Hw5 & _).
      destruct (os_File_Readdirnames E f w4) as [[names|e] w5];
        [|discriminate]. simpl in Hw5.
      pose proof (scanNames_extends E notify ctx dpath names w5) as (_ & Hw6 & _).
      destruct (scanNames E notify ctx dpath names w5) as [[e|] w6];
        [discriminate|]. simpl in Hw6.
      pose proof (os_File_Close_extends f w6) as (_ & Hw7 & _).
      inversion H; subst. split; [reflexivity|].
      simpl. now rewrite Hw7, Hw6, Hw5, Hw4.
    - pose proof (OpenReader_extends E ctx fileurl (registered fileurl w))
        as (_ & Hw4 & _).
      destruct (OpenReader E ctx fileurl (registered fileurl w))
        as [[reader [e|]] w4]; [discriminate|]. simpl in Hw4.
      inversion H; subst. split; [reflexivity|]. simpl. exact Hw4. }
  destruct Hfw as [-> Hw1]. rewrite <- Hw1 in Hreg.
  unfold Shutdown, Watcher_Remove. cbn [log w_watchers watcher path Path cb].
  rewrite Hreg, Hrm. cbn [wt_paths wt_closed wt_errors].
  destruct (decide (Path fileurl ∈ ({[Path fileurl]} ∪ ∅ : gset string)))
    as [_|Hnot]; [|exfalso; apply Hnot; set_solver].
  unfold Watcher_Close. cbn [log w_watchers set_watchers].
  rewrite lookup_insert_eq. cbn [wt_closed wt_errors].
  do 4 eexists. split; [reflexivity|]. split; [reflexivity|].
  split; [reflexivity|]. split; [simpl; apply lookup_insert_eq|].
  split; reflexivity.
Qed.

End WatcherProperties.

(** * The further properties at concrete inputs *)

Lemma Read_error_keeps_buffer_witness :
  Read demo_env demo_handle expired [x01; x02] demo_open_world
    = ((0, Some DeadlineExceeded, [x01; x02]),
       snd (Read demo_env demo_handle expired [x01; x02] demo_open_world)) /\
  [x01; x02] = [x01; x02].
Proof.
  split; [vm_compute; reflexivity|].
  apply (Read_error_keeps_buffer demo_env demo_handle expired [x01; x02]
           demo_open_world 0 DeadlineExceeded [x01; x02]
           (snd (Read demo_env demo_handle expired [x01; x02] demo_open_world))).
  vm_compute. reflexivity.
Defined.

(** Eight bytes asked of "/f", which holds six. *)
Lemma Read_short_zeroes_tail_witness :
  fst (Read demo_env demo_handle Background
            [x01; x01; x01; x01; x01; x01; x01; x01] demo_open_world)
    = (6, None, [x68; x65; x00; x6c; x6c; x6f; x00; x00]).
Proof.
  apply (Read_short_zeroes_tail demo_env demo_handle Background
           [x01; x01; x01; x01; x01; x01; x01; x01] demo_open_world
           (mkFd "/f" O_RDONLY 0) [x68; x65; x00; x6c; x6c; x6f]);
    try reflexivity; simpl; lia.
Defined.

(** A read through a descriptor that stands at the end of "/f". *)
Lemma Read_at_end_of_file_witness :
  Read demo_env demo_handle Background [x01; x02]
       (mkWorld demo_fs (<[3%nat := mkFd "/f" O_RDONLY 6]> ∅) 4 ∅ 0 0 [])
    = ((0, Some EOF, [x01; x02]),
       set_now 1
         (mkWorld demo_fs (<[3%nat := mkFd "/f" O_RDONLY 6]> ∅) 4 ∅ 0 0 [])).
Proof.
  apply (Read_at_end_of_file demo_env demo_handle Background [x01; x02]
           (mkWorld demo_fs (<[3%nat := mkFd "/f" O_RDONLY 6]> ∅) 4 ∅ 0 0 [])
           (mkFd "/f" O_RDONLY 6) [x68; x65; x00; x6c; x6c; x6f]);
    try reflexivity; try discriminate; try (simpl; lia).
Defined.

Lemma Read_twice_consecutive_witness :
  exists w1 w2,
    Read demo_env demo_handle Background [x00; x00] demo_open_world
      = ((2, None, [x68; x65]), w1) /\
    Read demo_env demo_handle Background [x00; x00; x00] w1
      = ((3, None, [x00; x6c; x6c]), w2) /\
    fst (Tell demo_handle Background w2) = (5, None).
Proof.
  apply (Read_twice_consecutive demo_env demo_handle Background
           [x00; x00] [x00; x00; x00] demo_open_world "/f" O_RDONLY 0
           [x68; x65; x00; x6c; x6c; x6f]);
    try reflexivity; try discriminate; simpl; lia.
Defined.

(** Skipping back by two from offset 6 of "/f", and back by seven. *)
Lemma Skip_is_relative_witness :
  (exists w', Skip demo_handle expired (-2) demo_write_world = (None, w') /\
     fst (Tell demo_handle expired w') = (4, None) /\
     w_fs w' = w_fs demo_write_world) /\
  Skip demo_handle expired (-7) demo_write_world
    = (Some ErrInval, demo_write_world).
Proof.
  destruct (Skip_is_relative demo_handle expired (-2) demo_write_world
              (mkFd "/f" O_WRONLY 6) eq_refl) as [Hin _].
  destruct (Skip_is_relative demo_handle expired (-7) demo_write_world
              (mkFd "/f" O_WRONLY 6) eq_refl) as [_ Hout].
  split.
  - apply Hin. rewrite MaxInt64_val. simpl. lia.
  - apply Hout. simpl. lia.
Defined.

Lemma use_after_Close_witness :
  exists w',
    Close demo_env demo_handle Background demo_open_world = (None, w') /\
    w_fs w' = w_fs demo_open_world /\
    fst (Read demo_env demo_handle Background [x01] w')
      = (0, Some ErrClosed, [x01]) /\
    fst (Write demo_env demo_handle Background [x02] w') = (0, Some ErrClosed) /\
    fst (Seek demo_handle Background 1 SeekStart w') = (0, Some ErrClosed) /\
    fst (Close demo_env demo_handle Background w') = Some ErrClosed /\
    w_fs (snd (Write demo_env demo_handle Background [x02] w'))
      = w_fs demo_open_world.
Proof.
  apply (use_after_Close demo_env demo_handle Background [x01] [x02] 1
           SeekStart demo_open_world (mkFd "/f" O_RDONLY 0));
    reflexivity.
Defined.

Lemma cancelled_Write_is_still_written_witness :
  fst (Write demo_env demo_handle expired [x21] demo_write_world)
    = (0, Some DeadlineExceeded) /\
  w_fs (snd (Write demo_env demo_handle expired [x21] demo_write_world))
    !! "/f"%string
    = Some (NFile ([x68; x65; x00; x6c; x6c; x6f] ++ [x21])).
Proof.
  apply (cancelled_Write_is_still_written demo_env demo_handle expired [x21]
           demo_write_world (mkFd "/f" O_WRONLY 6)
           [x68; x65; x00; x6c; x6c; x6f]);
    try reflexivity.
  unfold fires_first. simpl. lia.
Defined.

Lemma Write_twice_appends_witness :
  exists w1 w2,
    Write demo_env demo_handle Background [x21] demo_write_world
      = ((1, None), w1) /\
    Write demo_env demo_handle Background [x3f; x3f] w1 = ((2, None), w2) /\
    w_fs w2 !! "/f"%string
      = Some (NFile ([x68; x65; x00; x6c; x6c; x6f] ++ [x21] ++ [x3f; x3f])).
Proof.
  apply (Write_twice_appends demo_env demo_handle Background [x21] [x3f; x3f]
           demo_write_world (mkFd "/f" O_WRONLY 6)
           [x68; x65; x00; x6c; x6c; x6f]);
    reflexivity.
Defined.

Lemma OpenReader_missing_file_witness :
  OpenReader demo_env Background (mkURL "/missing") demo_world
    = ((None, Some ErrNotExist),
       set_now 1 (log (EvOpenFile "/missing" O_RDONLY) demo_world)).
Proof.
  apply (OpenReader_missing_file demo_env Background (mkURL "/missing")
           demo_world); reflexivity.
Defined.

Lemma cancelled_OpenReader_leaves_descriptor_witness :
  fst (OpenReader demo_env expired (mkURL "/f") demo_world)
    = (None, Some DeadlineExceeded) /\
  w_fds (snd (OpenReader demo_env expired (mkURL "/f") demo_world)) !! 3%nat
    = Some (mkFd "/f" O_RDONLY 0).
Proof.
  apply (cancelled_OpenReader_leaves_descriptor demo_env expired (mkURL "/f")
           demo_world (NFile [x68; x65; x00; x6c; x6c; x6f]));
    try reflexivity.
  unfold fires_first. simpl. lia.
Defined.

Lemma OpenWriter_MkdirAll_failure_witness :
  OpenWriter failing_mkdir_env Background (mkURL "/new/out.bin") demo_world
    = ((None, Some (OSError "permission denied")),
       set_now 1 (log (EvMkdirAll "/new/") demo_world)) /\
  OpenAppender failing_mkdir_env Background (mkURL "/new/out.bin") demo_world
    = ((None, Some (OSError "permission denied")),
       set_now 1 (log (EvMkdirAll "/new/") demo_world)).
Proof.
  apply (OpenWriter_MkdirAll_failure failing_mkdir_env Background
           (mkURL "/new/out.bin") demo_world (OSError "permission denied"));
    reflexivity.
Defined.

Lemma cancelled_OpenWriter_still_truncates_witness :
  fst (OpenWriter demo_env expired (mkURL "/f") demo_world)
    = (None, Some DeadlineExceeded) /\
  w_fs (snd (OpenWriter demo_env expired (mkURL "/f") demo_world))
    !! "/f"%string = Some (NFile []).
Proof.
  apply (cancelled_OpenWriter_still_truncates demo_env expired (mkURL "/f")
           demo_world [x68; x65; x00; x6c; x6c; x6f]);
    try reflexivity.
  unfold fires_first. simpl. lia.
Defined.

Lemma ListEntries_leaves_no_descriptor_witness :
  w_fds (snd (ListEntries demo_env Background (mkURL "/d") demo_world))
    = w_fds demo_world /\
  w_fs (snd (ListEntries demo_env Background (mkURL "/d") demo_world))
    = w_fs demo_world.
Proof.
  apply (ListEntries_leaves_no_descriptor demo_env Background (mkURL "/d")
           demo_world).
  reflexivity.
Defined.

Lemma ListEntries_directory_witness :
  fst (ListEntries demo_env Background (mkURL "/d") demo_world)
    = (["a.txt"; "b.txt"]%string, None).
Proof.
  apply (ListEntries_directory demo_env Background (mkURL "/d") demo_world);
    reflexivity.
Defined.

Lemma ListEntries_not_a_directory_witness :
  fst (ListEntries demo_env Background (mkURL "/f") demo_world)
    = ([], Some ErrNotDir) /\
  fst (ListEntries demo_env Background (mkURL "/missing") demo_world)
    = ([], Some ErrNotExist).
Proof.
  split.
  - apply (proj1 (proj1 (ListEntries_not_a_directory demo_env Background
                           (mkURL "/f") demo_world)
                    eq_refl eq_refl eq_refl)
             [x68; x65; x00; x6c; x6c; x6f]).
    reflexivity.
  - apply (proj2 (proj1 (ListEntries_not_a_directory demo_env Background
                           (mkURL "/missing") demo_world)
                    eq_refl eq_refl eq_refl)).
    reflexivity.
Defined.

Lemma Remove_then_gone_witness :
  exists w',
    Remove demo_env (fun _ => None) Background (mkURL "/d/a.txt") demo_world
      = (None, w') /\
    fst (OpenReader demo_env Background (mkURL "/d/a.txt") w')
      = (None, Some ErrNotExist) /\
    fst (Remove demo_env (fun _ => None) Background (mkURL "/d/a.txt") w')
      = Some ErrNotExist /\
    w_fs w' !! "/d"%string = Some (NDir ["b.txt"%string]) /\
    fst (ListEntries demo_env Background (mkURL "/d") w')
      = (["b.txt"%string], None) /\
    w_fs w' !! "/d/b.txt"%string = w_fs demo_world !! "/d/b.txt"%string.
Proof.
  destruct (Remove_then_gone demo_env (fun _ => None) Background
              (mkURL "/d/a.txt") demo_world [x61]
              eq_refl eq_refl eq_refl eq_refl)
    as (w' & Hrm & Hopen & Hagain & Hdir & Hrest).
  exists w'. split; [exact Hrm|]. split; [exact Hopen|].
  split; [exact Hagain|].
  destruct (Hdir ["a.txt"; "b.txt"]%string eq_refl) as [Hlist Hle].
  split; [exact Hlist|]. split; [exact (Hle eq_refl eq_refl)|].
  apply Hrest; discriminate.
Defined.

(** A create, a write on a file that is there, a remove of one that is
    gone, a chmod. *)
Lemma loop_reports_every_accepted_event_witness :
  exists evs,
    w_trace (watchForChanges demo_env
               (mkFileWatcher demo_cb 0 (mkURL "/d/") false)
               [mkEvent "/d/a.txt" fsnotify_Create;
                mkEvent "/d/a.txt" fsnotify_Write;
                mkEvent "/d/gone.txt" fsnotify_Remove;
                mkEvent "/d/a.txt" fsnotify_Chmod] demo_world)
      = w_trace demo_world ++ evs /\
    count_reports evs = 2%nat.
Proof.
  apply (loop_reports_every_accepted_event demo_env
           (mkFileWatcher demo_cb 0 (mkURL "/d/") false)
           [mkEvent "/d/a.txt" fsnotify_Create;
            mkEvent "/d/a.txt" fsnotify_Write;
            mkEvent "/d/gone.txt" fsnotify_Remove;
            mkEvent "/d/a.txt" fsnotify_Chmod] demo_world).
  reflexivity.
Defined.

(** A write to "/d/a.txt", and a remove of "/d/gone.txt". *)
Lemma event_goes_to_callback_or_error_channel_witness :
  (w_trace (handleEvent demo_env demo_watcher
              (mkEvent "/d/a.txt" fsnotify_Write) demo_watch_world) =
     w_trace demo_watch_world ++
       [EvOpenFile "/d/a.txt" O_RDONLY;
        EvGoCallback demo_cb (mkURL "/d/a.txt")
                     (Some (NewContextRespectingIoFile 3))] /\
   ErrChan demo_watcher
     (handleEvent demo_env demo_watcher
        (mkEvent "/d/a.txt" fsnotify_Write) demo_watch_world)
     = ErrChan demo_watcher demo_watch_world) /\
  (w_trace (handleEvent demo_env demo_watcher
              (mkEvent "/d/gone.txt" fsnotify_Remove) demo_watch_world) =
     w_trace demo_watch_world ++
       [EvOpenFile "/d/gone.txt" O_RDONLY; EvErrSend 0 ErrNotExist] /\
   ErrChan demo_watcher
     (handleEvent demo_env demo_watcher
        (mkEvent "/d/gone.txt" fsnotify_Remove) demo_watch_world)
     = ErrChan demo_watcher demo_watch_world ++ [ErrNotExist]).
Proof.
  split.
  - apply (proj1 (event_goes_to_callback_or_error_channel demo_env
                    demo_watcher (mkEvent "/d/a.txt" fsnotify_Write)
                    demo_watch_world (mkURL "/d/a.txt")
                    (mkWatcher {["/d"%string]} false [])
                    eq_refl eq_refl eq_refl eq_refl)
             (NFile [x61])).
    reflexivity.
  - apply (proj2 (event_goes_to_callback_or_error_channel demo_env
                    demo_watcher (mkEvent "/d/gone.txt" fsnotify_Remove)
                    demo_watch_world (mkURL "/d/gone.txt")
                    (mkWatcher {["/d"%string]} false [])
                    eq_refl eq_refl eq_refl eq_refl)).
    reflexivity.
Defined.

(** The file "/f" when it may not be opened; and the file "/d/a.txt"
    when [Stat] still knows it and the file system does not. *)
Lemma single_file_open_failure_witness :
  (exists w',
     NewFileWatcher (refusing_env "/f") 0 Background (mkURL "/f") demo_cb
                    demo_world
       = Some (Err (OSError "permission denied"), w') /\
     w_trace w' =
       w_trace demo_world ++
         [EvNewWatcher; EvStat "/f"; EvWatchAdd 0 "/f";
          EvOpenFile "/f" O_RDONLY] /\
     watching w' 0 "/f") /\
  (exists w',
     NewFileWatcher demo_env 0 Background (mkURL "/d/a.txt") demo_cb
                    (mkWorld ∅ ∅ 3 ∅ 0 0 [])
       = Some (Err ErrNotExist, w') /\
     w_trace w' =
       w_trace (mkWorld ∅ ∅ 3 ∅ 0 0 []) ++
         [EvNewWatcher; EvStat "/d/a.txt"; EvWatchAdd 0 "/d/a.txt";
          EvOpenFile "/d/a.txt" O_RDONLY] /\
     watching w' 0 "/d/a.txt").
Proof.
  split.
  - apply (single_file_open_failure (refusing_env "/f") 0 Background
             (mkURL "/f") demo_cb demo_world (mkFileInfo 420)
             (OSError "permission denied"));
      try reflexivity.
    left. reflexivity.
  - apply (single_file_open_failure demo_env 0 Background (mkURL "/d/a.txt")
             demo_cb (mkWorld ∅ ∅ 3 ∅ 0 0 []) (mkFileInfo 420) ErrNotExist);
      try reflexivity.
    right. repeat split.
Defined.

Lemma WatchFile_observes_context_witness :
  exists w',
    WatchFile demo_env 0 expired (mkURL "/f") demo_cb demo_world
      = Some ((None, None, Some DeadlineExceeded), w') /\
    w_trace w' =
      w_trace demo_world ++
        [EvNewWatcher; EvStat "/f"; EvWatchAdd 0 "/f";
         EvOpenFile "/f" O_RDONLY].
Proof.
  apply (WatchFile_observes_context demo_env 0 expired (mkURL "/f") demo_cb
           demo_world (mkFileInfo 420));
    try reflexivity.
  unfold fires_first. simpl. lia.
Defined.

(** The directory "/d" when the name "b.txt" does not resolve. *)
Lemma scan_stops_at_unresolvable_name_witness :
  exists calls w',
    NewFileWatcher (picky_env "b.txt") 0 Background (mkURL "/d") demo_cb
                   demo_world
      = Some (Err (OSError "invalid URL"), w') /\
    map fst calls = [mkURL "/d/a.txt"] /\
    w_trace w' =
      w_trace demo_world ++
        [EvNewWatcher; EvStat "/d"; EvWatchAdd 0 "/d";
         EvOpenFile "/d" O_RDONLY; EvReaddirnames 3]
        ++ scan_events demo_cb calls /\
    w_fds w' !! 3%nat = Some (mkFd "/d" O_RDONLY 0).
Proof.
  apply (scan_stops_at_unresolvable_name (picky_env "b.txt") 0 Background
           (mkURL "/d") demo_cb demo_world (mkFileInfo (Z.lor ModeDir 493))
           (mkURL "/d/") ["a.txt"%string] "b.txt"%string []
           [mkURL "/d/a.txt"] (OSError "invalid URL"));
    try reflexivity.
  repeat constructor.
Defined.

(** The directory "/d" under a deadline that has passed. *)
Lemma directory_scan_under_done_context_witness :
  exists w',
    NewFileWatcher demo_env 0 expired (mkURL "/d") demo_cb demo_world =
      Some (Ok (mkFileWatcher demo_cb 0 (mkURL "/d") false), w') /\
    callbacks (drop (length (w_trace demo_world)) (w_trace w'))
      = map (fun c => (c, None)) [mkURL "/d/a.txt"; mkURL "/d/b.txt"].
Proof.
  apply (directory_scan_under_done_context demo_env 0 expired (mkURL "/d")
           demo_cb demo_world (mkFileInfo (Z.lor ModeDir 493)) (mkURL "/d/")
           ["a.txt"; "b.txt"]%string [mkURL "/d/a.txt"; mkURL "/d/b.txt"]
           0%nat);
    try reflexivity; try (intros t; simpl; lia); repeat constructor.
Defined.

(** A watch on "/f", shut down while the watch is still there. *)
Lemma setup_then_Shutdown_closes_witness :
  exists fw w1,
    NewFileWatcher demo_env 0 Background (mkURL "/f") demo_cb demo_world
      = Some (Ok fw, w1) /\
    exists err f' w2 wt,
      Shutdown demo_env fw w1 = (err, f', w2) /\
      err = watchclose_fault demo_env /\
      shutdown f' = true /\
      w_watchers w2 !! watcher fw = Some wt /\
      wt_closed wt = true /\ wt_paths wt = ∅.
Proof.
  eexists. eexists. split; [vm_compute; reflexivity|].
  apply (setup_then_Shutdown_closes demo_env 0 Background (mkURL "/f") demo_cb
           demo_world (mkFileInfo 420));
    [reflexivity | reflexivity | reflexivity | reflexivity | reflexivity |].
  vm_compute. reflexivity.
Defined.

(** A write to "/f" and the file "/d/a.txt". *)
Lemma handle_operations_frame_witness :
  w_fs (snd (Write demo_env demo_handle Background [x21] demo_write_world))
    !! "/d/a.txt"%string
    = w_fs demo_write_world !! "/d/a.txt"%string.
Proof.
  apply (proj2 (proj2 (proj2 (proj2
           (handle_operations_frame demo_env demo_handle Background [x21]
              0 SeekStart demo_write_world))))).
  intros d Hd. vm_compute in Hd. injection Hd as <-. discriminate.
Defined.

(** Opening "/f" once more while descriptor 3 is open on it. *)
Lemma OpenReader_changes_nothing_witness :
  w_fds (snd (OpenReader demo_env Background (mkURL "/f") demo_open_world))
    !! 3%nat
    = w_fds demo_open_world !! 3%nat.
Proof.
  apply (proj2 (OpenReader_changes_nothing demo_env Background (mkURL "/f")
                  demo_open_world)).
  simpl. lia.
Defined.
